(** * The LLaVA captioner: prompts, batching and alignment emission

    A shallow embedding of [app.py] (class [LlavaCaptioner]) and of the
    argument parser of its [__main__] block.  Python strings are [string]
    (characters are code points below 256), Python integers are [Z], the
    [promptMap] dictionary is a [gmap string string], and the code's side
    effects (annotations added to the new view, calls of the model) are
    threaded through a small state-and-exception monad. *)

From stdpp Require Import base gmap strings list option pretty.
From Stdlib Require Import ZArith Ascii Lia.

Open Scope Z_scope.

(** ** Python strings *)

Module PyStr.

(** The line feed, written [\n] in the source. *)
Definition LF : ascii := ascii_of_nat 10.

Definition is_empty (s : string) : bool :=
  match s with EmptyString => true | String _ _ => false end.

(** The first [n] characters of [s] (all of [s] when it is shorter). *)
Fixpoint take_chars (n : nat) (s : string) : string :=
  match n, s with
  | S k, String c r => String c (take_chars k r)
  | _, _ => EmptyString
  end.

(** [s[:n]]: a negative bound counts from the end of the string. *)
Definition slice_to (n : Z) (s : string) : string :=
  if 0 <=? n then take_chars (Z.to_nat n) s
  else take_chars (String.length s - Z.to_nat (- n)) s.

(** [s.startswith(old)]. *)
Fixpoint starts_with (old s : string) : bool :=
  match old, s with
  | EmptyString, _ => true
  | String _ _, EmptyString => false
  | String a old', String b s' => if ascii_dec a b then starts_with old' s' else false
  end.

(** [old in s]. *)
Fixpoint contains (old s : string) : bool :=
  starts_with old s ||
  match s with
  | EmptyString => false
  | String _ r => contains old r
  end.

(** [s.replace(old, new)] for a non-empty [old]: scan from the left, and at
    an occurrence of [old] emit [new] and jump over the occurrence ([skip]
    counts the characters of it still to pass). *)
Fixpoint replace_from (old new : string) (skip : nat) (s : string) : string :=
  match s with
  | EmptyString => EmptyString
  | String c r =>
      match skip with
      | S k => replace_from old new k r
      | O =>
          if starts_with old s
          then new +:+ replace_from old new (Nat.pred (String.length old)) r
          else String c (replace_from old new O r)
      end
  end.

(** With an empty [old], Python puts [new] before every character and at
    the end. *)
Fixpoint intersperse (new s : string) : string :=
  match s with
  | EmptyString => new
  | String c r => new +:+ String c (intersperse new r)
  end.

Definition replace (s old new : string) : string :=
  if is_empty old then intersperse new s else replace_from old new O s.

(** Characters for which [str.isspace] holds, among code points below 256. *)
Definition is_space (c : ascii) : bool :=
  let n := nat_of_ascii c in
  ((9 <=? n) && (n <=? 13) || (28 <=? n) && (n <=? 32)
   || (n =? 133) || (n =? 160))%nat.

Fixpoint lstrip (s : string) : string :=
  match s with
  | EmptyString => EmptyString
  | String c r => if is_space c then lstrip r else s
  end.

Fixpoint rstrip (s : string) : string :=
  match s with
  | EmptyString => EmptyString
  | String c r =>
      let r' := rstrip r in
      if is_space c && is_empty r' then EmptyString else String c r'
  end.

(** [c in s]. *)
Fixpoint has_char (c : ascii) (s : string) : bool :=
  match s with
  | EmptyString => false
  | String a r => (if ascii_dec a c then true else false) || has_char c r
  end.

(** [s.strip()]. *)
Definition strip (s : string) : string := rstrip (lstrip s).

End PyStr.

(** ** Python exceptions and results *)

Inductive exn : Type :=
| IndexError
| AttributeError
| ValueError
| ModelError.

Inductive result (A : Type) : Type :=
| Ok (a : A)
| Raise (e : exn).
Arguments Ok {A} a.
Arguments Raise {A} e.

(** ** The MMIF data the app reads *)

Inductive DocumentType : Type := VideoDocument | AudioDocument | ImageDocument | TextDocumentType.

Inductive AtType : Type := TimeFrameT | TimePointT | AlignmentT | TextDocumentT | OtherT.

Global Instance DocumentType_eq_dec : EqDecision DocumentType.
Proof. solve_decision. Defined.
Global Instance AtType_eq_dec : EqDecision AtType.
Proof. solve_decision. Defined.

Record Document : Type := {
  doc_id : string;
  doc_type : DocumentType
}.

(** An annotation of an input view, with the properties [_annotate] reads
    from a time frame: [start], [end], [label] and the optional
    [representatives]. *)
Record Annotation : Type := {
  at_type : AtType;
  long_id : string;
  tf_start : Z;
  tf_end : Z;
  tf_label : string;
  representatives : option (list string)
}.

Record View : Type := {
  view_id : string;
  view_app : string;
  annotations : list Annotation
}.

Record Mmif : Type := {
  documents : list Document;
  views : list View
}.

Definition get_documents_by_type (mmif : Mmif) (t : DocumentType) : list Document :=
  filter (λ d, doc_type d = t) (documents mmif).

(** A Python generator object, by the items it yields when it is run to
    its end.  [list(g)] is that list; used as a condition ([if g:]) a
    generator is true whatever it yields, since the object defines neither
    [__bool__] nor [__len__]. *)
Record Generator (A : Type) : Type := { yields : list A }.

Arguments yields {A} _.

Definition py_list {A : Type} (g : Generator A) : list A := yields g.

Definition py_bool {A : Type} (g : Generator A) : bool := true.

(** [View.get_annotations(at_type)] of the SDK is a generator function: it
    yields the annotations of the view that have the type, in order. *)
Definition get_annotations (v : View) (t : AtType) : Generator Annotation :=
  {| yields := filter (λ a, at_type a = t) (annotations v) |}.

(** ** The request parameters

    [metadata.py] declares [defaultPrompt] and [promptMap] with defaults, so
    they always reach [_annotate]; [frameInterval] and [batchSize] are not
    declared there and are read with [parameters.get(key, fallback)]. *)
Record Parameters : Type := {
  promptMap : gmap string string;
  defaultPrompt : string;
  frameInterval : option Z;
  batchSize : option Z
}.

(** [parameters.get('frameInterval', 30)] *)
Definition frame_interval (parameters : Parameters) : Z :=
  default 30 (frameInterval parameters).

(** [parameters.get('batchSize', 8)] *)
Definition batch_size (parameters : Parameters) : Z :=
  default 8 (batchSize parameters).

(** ** The argument parser of [__main__] *)

Inductive ArgValue : Type :=
| ArgStr (s : string)
| ArgBool (b : bool)
| ArgInt (z : Z).

(** The declared arguments with the value each takes when its flag is not
    given ([store_true] gives [False]). *)
Definition parser : list (string * ArgValue) :=
  [ ("port"%string, ArgStr "5000");
    ("production"%string, ArgBool false);
    ("frameInterval"%string, ArgInt 10);
    ("batchSize"%string, ArgInt 4) ].

Fixpoint assoc (k : string) (l : list (string * ArgValue)) : option ArgValue :=
  match l with
  | [] => None
  | (k', v) :: r => if String.eqb k k' then Some v else assoc k r
  end.

(** [parser.parse_args()] on a command line with none of the flags. *)
Definition cli_default (name : string) : option ArgValue := assoc name parser.

(** ** Prompts *)

Definition SKIP : string := "-".
Definition PLACEHOLDER : string := "[CONTEXT]".
Definition INST_OPEN : string := "[INST] <image>" +:+ String PyStr.LF EmptyString.
Definition INST_CLOSE : string := String PyStr.LF "[/INST]".

(** [get_prompt]: [None] is Python's [None]. *)
Definition get_prompt (label : string) (prompt_map : gmap string string)
    (default_prompt : string) : option string :=
  let prompt := default default_prompt (prompt_map !! label) in
  if String.eqb prompt SKIP then None
  else Some (INST_OPEN +:+ prompt +:+ INST_CLOSE).

(** Line 90, [prompt = prompt.replace("[CONTEXT]", context)]: [None] has no
    attribute [replace]. *)
Definition substitute_context (prompt : option string) (context : string) : result string :=
  match prompt with
  | None => Raise AttributeError
  | Some p => Ok (PyStr.replace p PLACEHOLDER context)
  end.

(** ** The new view and the model calls *)

(** What [_annotate] adds to the new view, in creation order; [id] is the
    long identifier of the created object. *)
Inductive OutAnnotation : Type :=
| TextDocument (id : string) (text : string)
| Alignment (id : string) (source target : string)
| TimePoint (id : string) (timePoint : Z).

Definition kind_of (a : OutAnnotation) : AtType :=
  match a with
  | TextDocument _ _ => TextDocumentT
  | Alignment _ _ _ => AlignmentT
  | TimePoint _ _ => TimePointT
  end.

Definition count_kind (k : AtType) (v : list OutAnnotation) : nat :=
  length (filter (λ a, kind_of a = k) v).

(** The alignments of a view as (source, target) pairs, in order. *)
Definition alignments (v : list OutAnnotation) : list (string * string) :=
  omap (λ a, match a with Alignment _ s t => Some (s, t) | _ => None end) v.

(** The identifiers of the text documents of a view, in order. *)
Definition text_documents (v : list OutAnnotation) : list string :=
  omap (λ a, match a with TextDocument i _ => Some i | _ => None end) v.

(** The time points of a view as (identifier, frame number) pairs, in order. *)
Definition time_points (v : list OutAnnotation) : list (string * Z) :=
  omap (λ a, match a with TimePoint i n => Some (i, n) | _ => None end) v.

Section Captioner.

(** Video frames are opaque. *)
Context {Image : Type}.

(** One call of [process_batch]: the three lists it received.  An entry of
    [call_annotations] is the [source] of the dictionary [{'source': id}]. *)
Record Call : Type := {
  call_prompts : list string;
  call_images : list Image;
  call_annotations : list string
}.

(** The collaborators of the app: the MMIF helpers and the model.
    [generate prompts images] stands for [self.processor], then
    [self.model.generate], then [batch_decode]; [None] is a raised
    exception.  [new_long_id k n] is the long identifier the new view gives
    to the object of type [k] it creates when it already holds [n] of them. *)
Record Sdk : Type := {
  get_views_for_document : Mmif → string → list View;
  slice_text : Mmif → Z → Z → string;
  extract_mid_frame : Mmif → Annotation → Image;
  get_frame_count : Document → Z;
  extract_frames_as_images : Document → list Z → list Image;
  new_long_id : AtType → nat → string;
  generate : list string → list Image → option (list string)
}.

Context (sdk : Sdk).

(** *** State and exceptions *)

Record St : Type := {
  new_view : list OutAnnotation;
  calls : list Call
}.

Definition M (A : Type) : Type := St → St * result A.

Definition ret {A} (a : A) : M A := λ st, (st, Ok a).
Definition raise {A} (e : exn) : M A := λ st, (st, Raise e).
Definition bind {A B} (m : M A) (k : A → M B) : M B :=
  λ st, match m st with
        | (st', Ok a) => k a st'
        | (st', Raise e) => (st', Raise e)
        end.

Notation "'do' x <- m ; k" := (bind m (λ x, k))
  (at level 10, x name, m at level 100, k at level 200).
Notation "'run' m ; k" := (bind m (λ _, k))
  (at level 10, m at level 100, k at level 200).

(** [new_view.new_annotation] and [new_view.new_textdocument]: append the
    object under a fresh identifier and return the identifier. *)
Definition fresh (k : AtType) (st : St) : string :=
  new_long_id sdk k (count_kind k (new_view st)).

Definition add (a : OutAnnotation) : M unit :=
  λ st, ({| new_view := new_view st ++ [a]; calls := calls st |}, Ok tt).

Definition new_textdocument (text : string) : M string :=
  λ st, let i := fresh TextDocumentT st in
        ({| new_view := new_view st ++ [TextDocument i text]; calls := calls st |}, Ok i).

Definition new_alignment (source target : string) : M unit :=
  λ st, add (Alignment (fresh AlignmentT st) source target) st.

Definition new_timepoint (frame_number : Z) : M string :=
  λ st, let i := fresh TimePointT st in
        ({| new_view := new_view st ++ [TimePoint i frame_number]; calls := calls st |}, Ok i).

Definition invoke_model (prompts : list string) (images : list Image)
    (anns : list string) : M (list string) :=
  λ st,
    let st' := {| new_view := new_view st;
                  calls := calls st ++ [ {| call_prompts := prompts;
                                            call_images := images;
                                            call_annotations := anns |} ] |} in
    match generate sdk prompts images with
    | Some texts => (st', Ok texts)
    | None => (st', Raise ModelError)
    end.

(** [zip(xs, ys)] stops at the shorter list. *)
Fixpoint zip {A B} (xs : list A) (ys : list B) : list (A * B) :=
  match xs, ys with
  | x :: xs', y :: ys' => (x, y) :: zip xs' ys'
  | _, _ => []
  end.

(** The loop of [process_batch] (lines 78 to 82). *)
Fixpoint emit (pairs : list (string * string)) : M unit :=
  match pairs with
  | [] => ret tt
  | (generated_text, source) :: rest =>
      do target <- new_textdocument (PyStr.strip generated_text);
      run new_alignment source target;
      emit rest
  end.

Definition process_batch (prompts : list string) (images : list Image)
    (anns : list string) : M unit :=
  do generated_texts <- invoke_model prompts images anns;
  emit (zip generated_texts anns).

(** *** The branch over annotated time frames *)

(** [get_context] *)
Definition get_context (mmif : Mmif) (timeframe : Annotation) (max_characters : Z) : string :=
  let start_frame := tf_start timeframe in
  let end_frame := tf_end timeframe in
  let sliced_text := slice_text sdk mmif start_frame end_frame in
  PyStr.slice_to max_characters sliced_text.

(** The default of [max_characters]; [_annotate] never passes another. *)
Definition MAX_CHARACTERS : Z := 200.

(** Truth value of [representatives] (line 96): the property is present and
    not an empty list. *)
Definition has_representatives (timeframe : Annotation) : bool :=
  match representatives timeframe with
  | Some (_ :: _) => true
  | _ => false
  end.

(** Lines 96 to 101. *)
Definition select_image (mmif : Mmif) (timeframe : Annotation) : Image :=
  if has_representatives timeframe
  then extract_mid_frame sdk mmif timeframe
  else extract_mid_frame sdk mmif timeframe.

(** The local variables [prompts], [images] and [annotations]. *)
Record Batch : Type := {
  b_prompts : list string;
  b_images : list Image;
  b_annotations : list string
}.

Definition empty_batch : Batch :=
  {| b_prompts := []; b_images := []; b_annotations := [] |}.

Definition push (prompt : string) (image : Image) (source : string) (b : Batch) : Batch :=
  {| b_prompts := b_prompts b ++ [prompt];
     b_images := b_images b ++ [image];
     b_annotations := b_annotations b ++ [source] |}.

(** Lines 106 to 108. *)
Definition flush_if_full (batch_size : Z) (b : Batch) : M Batch :=
  if Z.of_nat (length (b_prompts b)) =? batch_size
  then run process_batch (b_prompts b) (b_images b) (b_annotations b); ret empty_batch
  else ret b.

(** Lines 110-111 and 131-132. *)
Definition flush_rest (prompts : list string) (images : list Image)
    (anns : list string) : M unit :=
  match prompts with
  | [] => ret tt
  | _ :: _ => process_batch prompts images anns
  end.

(** The body of the loop over time frames (lines 87 to 108). *)
Definition timeframe_step (mmif : Mmif) (parameters : Parameters)
    (timeframe : Annotation) (b : Batch) : M Batch :=
  let context := get_context mmif timeframe MAX_CHARACTERS in
  let label := tf_label timeframe in
  let prompt := get_prompt label (promptMap parameters) (defaultPrompt parameters) in
  match substitute_context prompt context with
  | Raise e => raise e
  | Ok prompt =>
      if PyStr.is_empty prompt then ret b
      else
        let image := select_image mmif timeframe in
        flush_if_full (batch_size parameters) (push prompt image (long_id timeframe) b)
  end.

Fixpoint timeframe_loop (mmif : Mmif) (parameters : Parameters)
    (timeframes : list Annotation) (b : Batch) : M Batch :=
  match timeframes with
  | [] => ret b
  | timeframe :: rest =>
      do b' <- timeframe_step mmif parameters timeframe b;
      timeframe_loop mmif parameters rest b'
  end.

Definition annotate_timeframes (mmif : Mmif) (parameters : Parameters)
    (timeframes : list Annotation) : M unit :=
  do b <- timeframe_loop mmif parameters timeframes empty_batch;
  flush_rest (b_prompts b) (b_images b) (b_annotations b).

(** *** The branch that samples frames at a fixed interval *)

(** [list(range(start, stop, step))] *)
Definition py_range (start stop step : Z) : result (list Z) :=
  if step =? 0 then Raise ValueError
  else
    let n := if 0 <? step then (stop - start + step - 1) / step
             else (start - stop - step - 1) / (- step) in
    Ok (map (λ i : nat, start + Z.of_nat i * step) (seq 0 (Z.to_nat n))).

(** Line 115 binds [images] to the list that [extract_frames_as_images]
    returns, line 117 iterates over that same list object, and line 121
    appends to whatever [images] is bound to.  [Extracted] says that
    [images] is still the iterated list; after line 129 it is a list of
    its own. *)
Inductive ImagesVar : Type :=
| Extracted
| Rebound (l : list Image).

Record SampleVars : Type := {
  s_prompts : list string;
  s_images : ImagesVar;
  s_annotations : list string;
  extracted : list Image
}.

(** The value of the variable [images]. *)
Definition images_value (vars : SampleVars) : list Image :=
  match s_images vars with
  | Extracted => extracted vars
  | Rebound l => l
  end.

(** Lines 120 and 121: [prompts.append(prompt)], [images.append(image)]. *)
Definition append_pair (prompt : string) (image : Image) (vars : SampleVars) : SampleVars :=
  match s_images vars with
  | Extracted =>
      {| s_prompts := s_prompts vars ++ [prompt];
         s_images := Extracted;
         s_annotations := s_annotations vars;
         extracted := extracted vars ++ [image] |}
  | Rebound l =>
      {| s_prompts := s_prompts vars ++ [prompt];
         s_images := Rebound (l ++ [image]);
         s_annotations := s_annotations vars;
         extracted := extracted vars |}
  end.

(** Line 125. *)
Definition append_annotation (source : string) (vars : SampleVars) : SampleVars :=
  {| s_prompts := s_prompts vars;
     s_images := s_images vars;
     s_annotations := s_annotations vars ++ [source];
     extracted := extracted vars |}.

(** Line 129: three fresh lists; the iterated list object stays. *)
Definition rebind (vars : SampleVars) : SampleVars :=
  {| s_prompts := [];
     s_images := Rebound [];
     s_annotations := [];
     extracted := extracted vars |}.

(** The loop of lines 117 to 129.  [zip] takes the next frame number, then
    the element at position [pos] of the iterated list, and stops when
    either is missing. *)
Fixpoint sample_loop (default_prompt : string) (batch_size : Z)
    (frame_numbers : list Z) (pos : nat) (vars : SampleVars) : M SampleVars :=
  match frame_numbers with
  | [] => ret vars
  | frame_number :: rest =>
      match extracted vars !! pos with
      | None => ret vars
      | Some image =>
          let prompt := default_prompt in
          let vars := append_pair prompt image vars in
          do timepoint <- new_timepoint frame_number;
          let vars := append_annotation timepoint vars in
          do vars <- (if Z.of_nat (length (s_prompts vars)) =? batch_size
                      then run process_batch (s_prompts vars) (images_value vars)
                                 (s_annotations vars);
                           ret (rebind vars)
                      else ret vars);
          sample_loop default_prompt batch_size rest (S pos) vars
      end
  end.

Definition annotate_sampled (video_doc : Document) (parameters : Parameters) : M unit :=
  let total_frames := get_frame_count sdk video_doc in
  match py_range 0 total_frames (frame_interval parameters) with
  | Raise e => raise e
  | Ok frame_numbers =>
      let images := extract_frames_as_images sdk video_doc frame_numbers in
      do vars <- sample_loop (defaultPrompt parameters) (batch_size parameters)
                   frame_numbers 0
                   {| s_prompts := []; s_images := Extracted;
                      s_annotations := []; extracted := images |};
      flush_rest (s_prompts vars) (images_value vars) (s_annotations vars)
  end.

(** *** [_annotate] *)

Definition TRANSNET_APP : string := "http://apps.clams.ai/transnet-wrapper/unresolvable".

(** What a request leaves behind: how [_annotate] ended, the content of the
    new view (when the view was created) and the calls of the model. *)
Record Outcome : Type := {
  status : result unit;
  out_view : option (list OutAnnotation);
  model_calls : list Call
}.

Definition aborted (e : exn) : Outcome :=
  {| status := Raise e; out_view := None; model_calls := [] |}.

(** Lines 51 to 54: the first video document, and the first of its views
    whose [app] is the scene detector; each [[0]] raises on an empty list. *)
Definition find_input (mmif : Mmif) : result (Document * View) :=
  match get_documents_by_type mmif VideoDocument with
  | [] => Raise IndexError
  | video_doc :: _ =>
      let input_views := get_views_for_document sdk mmif (doc_id video_doc) in
      match filter (λ v, view_app v = TRANSNET_APP) input_views with
      | [] => Raise IndexError
      | input_view :: _ => Ok (video_doc, input_view)
      end
  end.

(** [_annotate].  The two [print] calls and the metadata of the new view
    ([sign_view], [new_contain]) leave no trace in an [Outcome] and are left
    out.  [timeframes] (line 60) is the generator [get_annotations] returns:
    line 84 tests the generator object itself, and line 85 runs it with
    [list(timeframes)]. *)
Definition _annotate (mmif : Mmif) (parameters : Parameters) : Outcome :=
  match find_input mmif with
  | Raise e => aborted e
  | Ok (video_doc, input_view) =>
      let timeframes := get_annotations input_view TimeFrameT in
      let body :=
        if py_bool timeframes
        then annotate_timeframes mmif parameters (py_list timeframes)
        else annotate_sampled video_doc parameters in
      let (st, r) := body {| new_view := []; calls := [] |} in
      {| status := r; out_view := Some (new_view st); model_calls := calls st |}
  end.

End Captioner.

Arguments Call : clear implicits.
Arguments Sdk : clear implicits.
Arguments Outcome : clear implicits.

(** ** A stub of the collaborators and sample requests *)

Module Fixture.

Definition prefix_of (k : AtType) : string :=
  match k with
  | TimeFrameT => "tf"
  | TimePointT => "tp"
  | AlignmentT => "al"
  | TextDocumentT => "td"
  | OtherT => "an"
  end.

(** Frames are their frame numbers; the model answers every prompt with
    the same caption, one per prompt. *)
Definition stub : Sdk Z :=
  {| get_views_for_document := λ mmif _, views mmif;
     slice_text := λ _ _ _, "spoken words";
     extract_mid_frame := λ _ tf, (tf_start tf + tf_end tf) / 2;
     get_frame_count := λ _, 100;
     extract_frames_as_images := λ _ frame_numbers, frame_numbers;
     new_long_id := λ k n, "v_1:" +:+ prefix_of k +:+ "_" +:+ pretty (S n);
     generate := λ prompts _, Some (map (λ _, " a caption ") prompts) |}.

Definition video : Document := {| doc_id := "m1"; doc_type := VideoDocument |}.

Definition timeframe (i : string) (s e : Z) (label : string) : Annotation :=
  {| at_type := TimeFrameT; long_id := i; tf_start := s; tf_end := e;
     tf_label := label; representatives := None |}.

Definition request (tfs : list Annotation) : Mmif :=
  {| documents := [video];
     views := [ {| view_id := "v_0"; view_app := TRANSNET_APP; annotations := tfs |} ] |}.

Definition describe : string := "Describe what is shown in this video frame.".

Definition params (pm : gmap string string) (fi bs : option Z) : Parameters :=
  {| promptMap := pm; defaultPrompt := describe; frameInterval := fi; batchSize := bs |}.

(** Time frames labelled ["B"] are to be skipped. *)
Definition skip_B : gmap string string := {[ "B"%string := SKIP ]}.

Definition tf_1 : Annotation := timeframe "v_0:tf_1" 0 10 "A".
Definition tf_2 : Annotation := timeframe "v_0:tf_2" 10 20 "B".
Definition tf_3 : Annotation := timeframe "v_0:tf_3" 20 30 "A".

(** A request whose only view comes from another app. *)
Definition foreign_request : Mmif :=
  {| documents := [video];
     views := [ {| view_id := "v_0"; view_app := "http://apps.clams.ai/swt-detection/v7.4";
                   annotations := [tf_1] |} ] |}.

End Fixture.

(** ** Vocabulary of the statements *)

(** The sources and the targets of the alignments of a view, in order. *)
Definition sources (v : list OutAnnotation) : list string := (alignments v).*1.
Definition targets (v : list OutAnnotation) : list string := (alignments v).*2.

(** The identifiers of the time points of a view, in order. *)
Definition time_point_ids (v : list OutAnnotation) : list string := (time_points v).*1.

(** Alignment number [i] of the view points to text document number [i]. *)
Definition linked (v : list OutAnnotation) : Prop := targets v = text_documents v.

Section Vocabulary.

Context {Image : Type} (sdk : Sdk Image).

(** The model gives back a caption for every prompt of a call it answers. *)
Definition answers_every_prompt : Prop :=
  ∀ prompts images texts,
    generate sdk prompts images = Some texts → (length prompts ≤ length texts)%nat.

(** The time frame resolves to a prompt, not to the skip sentinel. *)
Definition non_skipped (parameters : Parameters) (timeframe : Annotation) : bool :=
  match get_prompt (tf_label timeframe) (promptMap parameters) (defaultPrompt parameters) with
  | Some _ => true
  | None => false
  end.

(** The identifiers of the spans that are to be captioned, in the order
    the request meets them: the non-skipped time frames the input view
    yields, or else, when it yields none, the time points synthesized into
    the new view. *)
Definition span_ids (mmif : Mmif) (parameters : Parameters)
    (view : list OutAnnotation) : list string :=
  match find_input sdk mmif with
  | Raise _ => []
  | Ok (_, input_view) =>
      match py_list (get_annotations input_view TimeFrameT) with
      | [] => time_point_ids view
      | timeframes => map long_id (filter (λ tf, non_skipped parameters tf = true) timeframes)
      end
  end.

(** There is a video document, and the first one has a view whose [app]
    is the scene detector. *)
Definition has_input_view (mmif : Mmif) : bool :=
  match get_documents_by_type mmif VideoDocument with
  | [] => false
  | video_doc :: _ =>
      existsb (λ v, bool_decide (view_app v = TRANSNET_APP))
              (get_views_for_document sdk mmif (doc_id video_doc))
  end.

(** The call received [n] prompts, [n] images and [n] sources. *)
Definition call_size (n : nat) (c : Call Image) : Prop :=
  length (call_prompts c) = n ∧ length (call_images c) = n
  ∧ length (call_annotations c) = n.

(** The three local lists hold [n] elements each. *)
Definition batch_length (n : nat) (b : @Batch Image) : Prop :=
  length (b_prompts b) = n ∧ length (b_images b) = n ∧ length (b_annotations b) = n.

(** The sources handed to the model, over all calls, in order. *)
Definition called_sources (cs : list (Call Image)) : list string :=
  concat (call_annotations <$> cs).

End Vocabulary.

(** ** [metadata.py] *)

Inductive IOType : Type :=
| DocumentIO (t : DocumentType)
| AnnotationIO (t : AtType).

Global Instance IOType_eq_dec : EqDecision IOType.
Proof. solve_decision. Defined.

Inductive ParameterDefault : Type :=
| DefaultString (s : string)
| DefaultList (l : list string).

Record ParameterSpec : Type := {
  param_name : string;
  param_type : string;
  param_default : ParameterDefault;
  param_description : string
}.

Record AppMetadata : Type := {
  app_name : string;
  app_description : string;
  app_license : string;
  app_identifier : string;
  app_url : string;
  app_inputs : list IOType;
  app_outputs : list IOType;
  app_parameters : list ParameterSpec
}.

(** The double quote of the [promptMap] description. *)
Definition DQ : string := String (ascii_of_nat 34) EmptyString.

(** [appmetadata()]: the adjacent string literals of the descriptions are
    joined as Python joins them, without a space. *)
Definition appmetadata : AppMetadata :=
  {| app_name := "Llava Captioner";
     app_description := "Applies llava to video frames.";
     app_license := "Apache 2.0";
     app_identifier := "llava-captioner";
     app_url := "https://github.com/clamsproject/app-llava-captioner";
     app_inputs := [DocumentIO VideoDocument; AnnotationIO TimeFrameT];
     app_outputs := [AnnotationIO AlignmentT; DocumentIO TextDocumentType];
     app_parameters :=
       [ {| param_name := "defaultPrompt";
            param_type := "string";
            param_default := DefaultString "Describe what is shown in this video frame.";
            param_description :=
              "default prompt to use for timeframes not specified in the promptMap. If set to `-`, "
              +:+ "timeframes not specified in the promptMap will be skipped." |};
         {| param_name := "promptMap";
            param_type := "map";
            param_default := DefaultList [];
            param_description :=
              "mapping of labels of the input timeframe annotations to new prompts. Must be formatted as "
              +:+ DQ +:+ "IN_LABEL:PROMPT" +:+ DQ
              +:+ " (with a colon). To pass multiple mappings, use this parameter multiple "
              +:+ "times. By default, any timeframe labels not mapped to a prompt will be used with the default"
              +:+ "prompt. In order to skip timeframes with a particular label, pass `-` as the prompt value."
              +:+ "in order to skip all timeframes not specified in the promptMap, set the defaultPrompt"
              +:+ "parameter to `-`" |} ] |}.

(** The declaration of the parameter called [name]. *)
Definition declared (name : string) : option ParameterSpec :=
  head (filter (λ spec, param_name spec = name) (app_parameters appmetadata)).

(** The parameters of a request that sets none: the declared default of
    [defaultPrompt], no [promptMap] entry for the declared empty list, and
    nothing for the two parameters [metadata.py] does not declare. *)
Definition declared_defaults : Parameters :=
  {| promptMap := ∅;
     defaultPrompt := match param_default <$> declared "defaultPrompt" with
                      | Some (DefaultString s) => s
                      | _ => EmptyString
                      end;
     frameInterval := None;
     batchSize := None |}.

(** The declared type to which an object of the new view belongs. *)
Definition io_type_of (a : OutAnnotation) : IOType :=
  match a with
  | TextDocument _ _ => DocumentIO TextDocumentType
  | Alignment _ _ _ => AnnotationIO AlignmentT
  | TimePoint _ _ => AnnotationIO TimePointT
  end.

(** ** Vocabulary of the further properties *)

(** The text documents and alignments that the loop of [process_batch]
    makes of (caption, source) pairs, given the identifiers (of the text
    document, of the alignment) the view hands out. *)
Definition pair_objects (pairs ids : list (string * string)) : list OutAnnotation :=
  concat (zip_with (λ pair id, [TextDocument id.1 (PyStr.strip pair.1);
                                Alignment id.2 pair.2 id.1]) pairs ids).

(** The texts of the text documents of a view, in order. *)
Definition texts (v : list OutAnnotation) : list string :=
  omap (λ a, match a with TextDocument _ t => Some t | _ => None end) v.

Section FurtherVocabulary.

Context {Image : Type} (sdk : Sdk Image).

(** The prompt the loop over time frames renders for a time frame that is
    not skipped (lines 87 to 90). *)
Definition rendered_prompt (mmif : Mmif) (parameters : Parameters)
    (timeframe : Annotation) : string :=
  PyStr.replace
    (INST_OPEN +:+ default (defaultPrompt parameters)
                     (promptMap parameters !! tf_label timeframe) +:+ INST_CLOSE)
    PLACEHOLDER (get_context sdk mmif timeframe MAX_CHARACTERS).

(** The call that hands the model the given time frames. *)
Definition call_of (mmif : Mmif) (parameters : Parameters)
    (timeframes : list Annotation) : Call Image :=
  {| call_prompts := rendered_prompt mmif parameters <$> timeframes;
     call_images := extract_mid_frame sdk mmif <$> timeframes;
     call_annotations := long_id <$> timeframes |}.

End FurtherVocabulary.

(** The text of a text document has no white space to strip. *)
Definition stripped_text (a : OutAnnotation) : Prop :=
  match a with
  | TextDocument _ t => PyStr.strip t = t
  | _ => True
  end.

(** The object is a text document or an alignment. *)
Definition caption_object (a : OutAnnotation) : Prop :=
  match a with
  | TimePoint _ _ => False
  | _ => True
  end.

Section CallVocabulary.

Context {Image : Type} (sdk : Sdk Image).

(** The call hands the model some of the given time frames, at least one:
    prompt, image and source at one position come from the same time frame. *)
Definition hands_over (mmif : Mmif) (parameters : Parameters)
    (timeframes : list Annotation) (c : Call Image) : Prop :=
  ∃ l, l ≠ [] ∧ l ⊆ timeframes ∧ c = call_of sdk mmif parameters l.

(** The three local lists of the loop over time frames hold the items of
    the time frames [l]. *)
Definition batch_of (mmif : Mmif) (parameters : Parameters)
    (l : list Annotation) (b : @Batch Image) : Prop :=
  b_prompts b = rendered_prompt sdk mmif parameters <$> l
  ∧ b_images b = extract_mid_frame sdk mmif <$> l
  ∧ b_annotations b = long_id <$> l.

End CallVocabulary.

Section RequestVocabulary.

Context {Image : Type} (sdk : Sdk Image).

(** The time frames [_annotate] reads (line 60): those of the input view. *)
Definition input_timeframes (mmif : Mmif) : list Annotation :=
  match find_input sdk mmif with
  | Ok (_, input_view) => py_list (get_annotations input_view TimeFrameT)
  | Raise _ => []
  end.

(** What a request leaves behind, from the final state of its body. *)
Definition outcome_of (run : St * result unit) : Outcome Image :=
  {| status := run.2; out_view := Some (new_view run.1); model_calls := calls run.1 |}.

(** The call hands the model as many sources as prompts, at least one,
    and every prompt is [prompt]. *)
Definition same_prompt_call (prompt : string) (c : Call Image) : Prop :=
  call_annotations c ≠ []
  ∧ call_prompts c = replicate (length (call_annotations c)) prompt.

End RequestVocabulary.

(** The state in which the body of [_annotate] starts: an empty new view,
    no call made. *)
Definition start {Image : Type} : @St Image := {| new_view := []; calls := [] |}.

(** Modelled from the spec: [vdh.extract_mid_frame] belongs to the SDK and
    is not in the repository.  The spec has it give "the temporal midpoint
    frame of the span's extent": the frame, as [frame_at] reads frames off
    the video of the request, whose number is halfway between the start and
    the end of the time frame, rounded down. *)
Definition mid_frame {Image : Type} (frame_at : Mmif → Z → Image)
    (mmif : Mmif) (timeframe : Annotation) : Image :=
  frame_at mmif ((tf_start timeframe + tf_end timeframe) / 2).

(** The frame numbers of the time points of a view, in order. *)
Definition time_point_frames (v : list OutAnnotation) : list Z := (time_points v).*2.

(** ** Further sample requests *)

Module Sample.

(** The stub with a model that fails at every call. *)
Definition silent : Sdk Z :=
  {| get_views_for_document := get_views_for_document Fixture.stub;
     slice_text := slice_text Fixture.stub;
     extract_mid_frame := extract_mid_frame Fixture.stub;
     get_frame_count := get_frame_count Fixture.stub;
     extract_frames_as_images := extract_frames_as_images Fixture.stub;
     new_long_id := new_long_id Fixture.stub;
     generate := λ _ _, None |}.

Definition one_timeframe : Mmif := Fixture.request [Fixture.tf_1].
Definition two_timeframes : Mmif := Fixture.request [Fixture.tf_1; Fixture.tf_3].

(** A time frame from 10 to 20 that carries a representative. *)
Definition with_representatives : Annotation :=
  {| at_type := TimeFrameT; long_id := "v_0:tf_9"; tf_start := 10; tf_end := 20;
     tf_label := "A"; representatives := Some ["v_0:tp_3"%string] |}.

Definition plain : Parameters := Fixture.params ∅ None None.
Definition quarters : Parameters := Fixture.params ∅ (Some 25) (Some 4).

(** The sampling block of lines 113-132 run on its own, on the video of
    the fixture (100 frames), every 25 frames and in batches of 4. *)
Definition sampled : @St Z * result unit :=
  annotate_sampled Fixture.stub Fixture.video quarters start.

(** What [_annotate] leaves in the new view for [one_timeframe]. *)
Definition one_caption : list OutAnnotation :=
  [ TextDocument "v_1:td_1" "a caption"; Alignment "v_1:al_1" "v_0:tf_1" "v_1:td_1" ].

(** The view of a request, empty when there is none. *)
Definition view_of {Image : Type} (out : Outcome Image) : list OutAnnotation :=
  default [] (out_view out).

(** The first call of a request. *)
Definition first_call (out : Outcome Z) : Call Z :=
  default {| call_prompts := []; call_images := []; call_annotations := [] |}
          (head (model_calls out)).

End Sample.

(** * Properties *)

(** ** Strings *)

Section StringFacts.

Import PyStr.

Lemma take_chars_length (n : nat) (s : string) :
  (String.length (take_chars n s) ≤ n)%nat.
Proof.
  revert s. induction n as [|n IH]; intros [|c r]; simpl; try lia.
  specialize (IH r). lia.
Qed.

Lemma slice_to_length (n : Z) (s : string) :
  0 ≤ n → Z.of_nat (String.length (slice_to n s)) ≤ n.
Proof.
  intros Hn. unfold slice_to.
  destruct (Z.leb_spec 0 n) as [_|Hlt]; [|lia].
  pose proof (take_chars_length (Z.to_nat n) s). lia.
Qed.

Lemma starts_with_nonempty_contains (old s : string) :
  starts_with old s = true → contains old s = true.
Proof. intros H. destruct s; simpl; rewrite H; reflexivity. Qed.

(** Without an occurrence of [old] there is nothing to replace. *)
Lemma replace_from_absent (old new s : string) :
  contains old s = false → replace_from old new O s = s.
Proof.
  induction s as [|c r IH]; intros H; [reflexivity|].
  simpl in H. apply orb_false_iff in H as [Hhere Hrest].
  change (replace_from old new 0 (String c r))
    with (if starts_with old (String c r)
          then new +:+ replace_from old new (Nat.pred (String.length old)) r
          else String c (replace_from old new O r)).
  rewrite Hhere, IH; auto.
Qed.

Lemma contains_not_empty (old s : string) :
  contains old s = false → is_empty old = false.
Proof. destruct old; [destruct s; discriminate | reflexivity]. Qed.

Lemma replace_absent (s old new : string) :
  contains old s = false → replace s old new = s.
Proof.
  intros H. unfold replace.
  rewrite (contains_not_empty _ _ H). apply replace_from_absent, H.
Qed.

(** A character that [old] does not have cannot be matched: a match of
    [old] at the head of [s +:+ String c t] lies within [s]. *)
Lemma starts_with_app_stop (old s t : string) (c : ascii) :
  has_char c old = false →
  starts_with old (s +:+ String c t) = true → starts_with old s = true.
Proof.
  revert s. induction old as [|a old IH]; intros s Hc H; [destruct s; reflexivity|].
  simpl in Hc. apply orb_false_iff in Hc as [Hac Hrest].
  destruct s as [|b s]; simpl in *.
  - destruct (ascii_dec a c); discriminate.
  - destruct (ascii_dec a b); [|discriminate]. eauto.
Qed.

Lemma contains_app_stop (old s t : string) (c : ascii) :
  has_char c old = false →
  contains old s = false →
  contains old (String c t) = false →
  contains old (s +:+ String c t) = false.
Proof.
  intros Hc Hs Ht. induction s as [|b s IH]; [exact Ht|].
  simpl in Hs. apply orb_false_iff in Hs as [Hhere Hrest].
  change (contains old (String b s +:+ String c t))
    with (starts_with old (String b s +:+ String c t) || contains old (s +:+ String c t)).
  rewrite (IH Hrest), orb_false_r.
  destruct (starts_with old (String b s +:+ String c t)) eqn:E; [|reflexivity].
  apply starts_with_app_stop in E; [congruence | exact Hc].
Qed.

(** Wrapping a template between [[INST] <image>\n] and [\n[/INST]] adds no
    placeholder. *)
Lemma wrap_keeps_absent (template : string) :
  contains PLACEHOLDER template = false →
  contains PLACEHOLDER (INST_OPEN +:+ template +:+ INST_CLOSE) = false.
Proof.
  intros H.
  assert (Hin : contains PLACEHOLDER (template +:+ INST_CLOSE) = false).
  { apply contains_app_stop; [reflexivity | exact H | reflexivity]. }
  unfold INST_OPEN. simpl. exact Hin.
Qed.

(** A wrapped prompt keeps its first character whatever is substituted. *)
Lemma replace_wrapped_not_empty (prompt context : string) :
  is_empty (replace (INST_OPEN +:+ prompt +:+ INST_CLOSE) PLACEHOLDER context) = false.
Proof. reflexivity. Qed.

End StringFacts.

(** ** Prompts, contexts and images *)

Section Rendering.

Context {Image : Type} (sdk : Sdk Image).

(** C6. The context that [_annotate] substitutes into a prompt is
    [get_context] at its default bound, and whatever text the document
    aligns with the span, that context has at most 200 characters. *)
Theorem context_at_most_200_characters (mmif : Mmif) (timeframe : Annotation) :
  MAX_CHARACTERS = 200
  ∧ (String.length (get_context sdk mmif timeframe MAX_CHARACTERS) ≤ 200)%nat.
Proof.
  split; [reflexivity|].
  unfold get_context.
  pose proof (slice_to_length MAX_CHARACTERS
                (slice_text sdk mmif (tf_start timeframe) (tf_end timeframe))) as H.
  unfold MAX_CHARACTERS in *. lia.
Qed.

(** When the template resolved for a label is not the skip sentinel
    and does not contain [[CONTEXT]], the substitution of line 90 raises
    nothing and returns the prompt as [get_prompt] built it. *)
Lemma substitution_without_placeholder
    (label : string) (prompt_map : gmap string string)
    (default_prompt context template : string) :
  default default_prompt (prompt_map !! label) = template →
  template ≠ SKIP →
  PyStr.contains PLACEHOLDER template = false →
  get_prompt label prompt_map default_prompt = Some (INST_OPEN +:+ template +:+ INST_CLOSE)
  ∧ substitute_context (get_prompt label prompt_map default_prompt) context
    = Ok (INST_OPEN +:+ template +:+ INST_CLOSE).
Proof.
  intros Hres Hskip Habsent.
  assert (Hp : get_prompt label prompt_map default_prompt
               = Some (INST_OPEN +:+ template +:+ INST_CLOSE)).
  { unfold get_prompt. rewrite Hres.
    destruct (String.eqb_spec template SKIP); [contradiction | reflexivity]. }
  split; [exact Hp|].
  rewrite Hp. unfold substitute_context.
  rewrite replace_absent; [reflexivity | apply wrap_keeps_absent, Habsent].
Qed.

(** Both branches of lines 96-101 call [extract_mid_frame]. *)
Lemma select_image_extracts_mid_frame (mmif : Mmif) (timeframe : Annotation) :
  select_image sdk mmif timeframe = extract_mid_frame sdk mmif timeframe.
Proof. unfold select_image. destruct (has_representatives timeframe); reflexivity. Qed.

(** C9. With an [extract_mid_frame] that gives the frame at the temporal
    midpoint of the extent of the time frame, the image taken for a time
    frame is the frame halfway between its start and its end, whether or
    not it carries representatives; and it is the same image for every time
    frame of the same extent, whatever its representatives, its label or
    its identifier. *)
Theorem image_is_the_temporal_midpoint
    (frame_at : Mmif → Z → Image) (mmif : Mmif) (timeframe : Annotation) :
  (∀ m tf, extract_mid_frame sdk m tf = mid_frame frame_at m tf) →
  select_image sdk mmif timeframe
  = frame_at mmif ((tf_start timeframe + tf_end timeframe) / 2)
  ∧ ∀ other,
      tf_start other = tf_start timeframe →
      tf_end other = tf_end timeframe →
      select_image sdk mmif other = select_image sdk mmif timeframe.
Proof.
  intros Hmid.
  assert (Himg : ∀ tf, select_image sdk mmif tf
                       = frame_at mmif ((tf_start tf + tf_end tf) / 2)).
  { intros tf. unfold select_image.
    destruct (has_representatives tf); rewrite Hmid; reflexivity. }
  split; [apply Himg|].
  intros other Hs He. rewrite !Himg, Hs, He. reflexivity.
Qed.

End Rendering.

(** C8. The sentinel ["-"] does not contain [[CONTEXT]]; for a label whose
    template resolves to it, [get_prompt] gives [None] and the substitution
    of line 90 raises [AttributeError], whatever the context is. *)
Theorem placeholder_free_sentinel_raises :
  PyStr.contains PLACEHOLDER SKIP = false
  ∧ default Fixture.describe (Fixture.skip_B !! "B"%string) = SKIP
  ∧ ∀ context,
      substitute_context (get_prompt "B" Fixture.skip_B Fixture.describe) context
      = Raise AttributeError.
Proof. repeat split. Qed.

Lemma image_is_the_temporal_midpoint_witness :
  select_image Fixture.stub Sample.one_timeframe Sample.with_representatives = 15
  ∧ ∀ other,
      tf_start other = 10 →
      tf_end other = 20 →
      select_image Fixture.stub Sample.one_timeframe other
      = select_image Fixture.stub Sample.one_timeframe Sample.with_representatives.
Proof.
  apply (image_is_the_temporal_midpoint Fixture.stub (λ _ frame, frame)
           Sample.one_timeframe Sample.with_representatives).
  intros m tf. reflexivity.
Defined.

Lemma substitution_without_placeholder_witness :
  get_prompt "chyron" {[ "chyron"%string := "Read the text."%string ]} Fixture.describe
  = Some (INST_OPEN +:+ "Read the text." +:+ INST_CLOSE)
  ∧ substitute_context
      (get_prompt "chyron" {[ "chyron"%string := "Read the text."%string ]} Fixture.describe)
      "spoken words"
    = Ok (INST_OPEN +:+ "Read the text." +:+ INST_CLOSE).
Proof.
  apply (substitution_without_placeholder "chyron"
           {[ "chyron"%string := "Read the text."%string ]} Fixture.describe
           "spoken words" "Read the text.").
  - reflexivity.
  - discriminate.
  - reflexivity.
Defined.

(** ** Parameters *)

(** The loop over time frames reads the parameters through [promptMap],
    [defaultPrompt] and [batch_size] only. *)
Lemma timeframe_loop_reads {Image : Type} (sdk : Sdk Image) (mmif : Mmif)
    (p1 p2 : Parameters) :
  promptMap p1 = promptMap p2 →
  defaultPrompt p1 = defaultPrompt p2 →
  batch_size p1 = batch_size p2 →
  ∀ timeframes b st,
    timeframe_loop sdk mmif p1 timeframes b st = timeframe_loop sdk mmif p2 timeframes b st.
Proof.
  intros Hpm Hdp Hbs timeframes.
  induction timeframes as [|tf rest IH]; intros b st; [reflexivity|].
  simpl. unfold bind, timeframe_step. rewrite Hpm, Hdp, Hbs.
  match goal with |- context [?m st] =>
    lazymatch m with
    | match _ with Ok _ => _ | Raise _ => _ end => destruct (m st) as [st' [b'|e]]
    end
  end; [apply IH | reflexivity].
Qed.

(** C7. A request without [frameInterval] and [batchSize] is served as one
    with 30 and 8, while the parser of [__main__] declares 10 and 4: the two
    pairs of defaults differ. *)
Theorem fallbacks_differ_from_cli_defaults
    {Image : Type} (sdk : Sdk Image) (mmif : Mmif) (parameters : Parameters) :
  frameInterval parameters = None →
  batchSize parameters = None →
  frame_interval parameters = 30
  ∧ batch_size parameters = 8
  ∧ _annotate sdk mmif parameters
    = _annotate sdk mmif {| promptMap := promptMap parameters;
                            defaultPrompt := defaultPrompt parameters;
                            frameInterval := Some 30;
                            batchSize := Some 8 |}
  ∧ cli_default "frameInterval" = Some (ArgInt 10)
  ∧ cli_default "batchSize" = Some (ArgInt 4)
  ∧ cli_default "frameInterval" ≠ Some (ArgInt (frame_interval parameters))
  ∧ cli_default "batchSize" ≠ Some (ArgInt (batch_size parameters)).
Proof.
  intros Hfi Hbs. destruct parameters as [pm dp fi bs]. simpl in Hfi, Hbs. subst.
  repeat split; try reflexivity.
  - unfold _annotate. destruct (find_input sdk mmif) as [[video_doc input_view]|e]; [|reflexivity].
    cbn [py_bool]. unfold annotate_timeframes, bind.
    rewrite (timeframe_loop_reads sdk mmif _
               {| promptMap := pm; defaultPrompt := dp;
                  frameInterval := Some 30; batchSize := Some 8 |});
      reflexivity.
  - intros H; cbv in H; discriminate H.
  - intros H; cbv in H; discriminate H.
Qed.

Lemma fallbacks_differ_from_cli_defaults_witness :
  frame_interval (Fixture.params ∅ None None) = 30
  ∧ batch_size (Fixture.params ∅ None None) = 8
  ∧ cli_default "frameInterval" = Some (ArgInt 10)
  ∧ cli_default "batchSize" = Some (ArgInt 4).
Proof.
  destruct (fallbacks_differ_from_cli_defaults Fixture.stub (Fixture.request [])
              (Fixture.params ∅ None None) eq_refl eq_refl)
    as (H1 & H2 & _ & H3 & H4 & _).
  exact (conj H1 (conj H2 (conj H3 H4))).
Defined.

(** ** The input view *)

Section InputView.

Context {Image : Type} (sdk : Sdk Image).

Lemma filter_nil_existsb (vs : list View) :
  existsb (λ v, bool_decide (view_app v = TRANSNET_APP)) vs = false →
  filter (λ v, view_app v = TRANSNET_APP) vs = [].
Proof.
  induction vs as [|v vs IH]; intros H; [reflexivity|].
  simpl in H. apply orb_false_iff in H as [Hv Hvs].
  apply bool_decide_eq_false in Hv.
  rewrite filter_cons_False by exact Hv. auto.
Qed.

Lemma find_input_missing (mmif : Mmif) :
  has_input_view sdk mmif = false → find_input sdk mmif = Raise IndexError.
Proof.
  unfold has_input_view, find_input.
  destruct (get_documents_by_type mmif VideoDocument) as [|video_doc others]; [reflexivity|].
  intros H. simpl. rewrite (filter_nil_existsb _ H). reflexivity.
Qed.

(** C10. Whatever the request holds, time frames or none, when there is
    no video document or its views include none made by the scene detector,
    [_annotate] ends with [IndexError] before it creates the new view,
    renders a prompt or calls the model. *)
Theorem missing_input_view_aborts (mmif : Mmif) (parameters : Parameters) :
  has_input_view sdk mmif = false →
  _annotate sdk mmif parameters
  = {| status := Raise IndexError; out_view := None; model_calls := [] |}.
Proof.
  intros H. unfold _annotate. rewrite (find_input_missing mmif H). reflexivity.
Qed.

End InputView.

Lemma missing_input_view_aborts_witness :
  has_input_view Fixture.stub Fixture.foreign_request = false
  ∧ _annotate Fixture.stub Fixture.foreign_request (Fixture.params ∅ None None)
    = {| status := Raise IndexError; out_view := None; model_calls := [] |}.
Proof.
  split; [reflexivity|].
  apply (missing_input_view_aborts Fixture.stub Fixture.foreign_request
           (Fixture.params ∅ None None)).
  reflexivity.
Defined.

(** ** Requests on which the code misses the specification *)

Section Failures.

Import Fixture.

(** C1. One time frame labelled ["B"], with ["B"] mapped to the skip
    sentinel: [get_prompt] returns [None], line 90 calls [replace] on it
    and the request ends with [AttributeError] instead of passing over the
    time frame. *)
Theorem skip_sentinel_raises :
  get_prompt (tf_label tf_2) skip_B describe = None
  ∧ _annotate stub (request [tf_2]) (params skip_B None None)
    = {| status := Raise AttributeError; out_view := Some []; model_calls := [] |}.
Proof. split; vm_compute; reflexivity. Qed.

(** C2. No time frames, 100 frames, [frameInterval=25], [batchSize=4]:
    the generator of line 60 yields nothing, but as an object it is true at
    line 84, so the loop over time frames runs, over nothing: the request
    ends normally with an empty view, no time point, no caption and no call
    of the model.  The sampling of lines 113-132 is not entered. *)
Theorem no_time_frames_are_not_sampled :
  let out := _annotate stub (request []) (params ∅ (Some 25) (Some 4)) in
  input_timeframes stub (request []) = []
  ∧ status out = Ok tt
  ∧ out_view out = Some []
  ∧ model_calls out = [].
Proof. vm_compute. repeat split; reflexivity. Qed.

(** C3. Three time frames of which the second is to be skipped: two spans
    are not skipped, yet the request ends with [AttributeError] and the new
    view holds no text document and no alignment. *)
Theorem skipped_span_leaves_no_output :
  let parameters := params skip_B None None in
  let out := _annotate stub (request [tf_1; tf_2; tf_3]) parameters in
  length (filter (λ tf, non_skipped parameters tf = true) [tf_1; tf_2; tf_3]) = 2%nat
  ∧ status out = Raise AttributeError
  ∧ (text_documents <$> out_view out) = Some []
  ∧ (alignments <$> out_view out) = Some [].
Proof. vm_compute. repeat split; reflexivity. Qed.

(** C4. A time frame to caption followed by one to skip, batch size 8:
    one span is processed, so one call of the model is due, but the request
    ends at the skipped time frame before the last batch is flushed and the
    model is never called. *)
Theorem pending_batch_never_flushed :
  let parameters := params skip_B None None in
  let out := _annotate stub (request [tf_1; tf_2]) parameters in
  length (filter (λ tf, non_skipped parameters tf = true) [tf_1; tf_2]) = 1%nat
  ∧ batch_size parameters = 8
  ∧ status out = Raise AttributeError
  ∧ model_calls out = [].
Proof. vm_compute. repeat split; reflexivity. Qed.

End Failures.

(** ** Emission of captions and alignments *)

Section Emission.

Context {Image : Type} (sdk : Sdk Image).

Lemma sources_app (v w : list OutAnnotation) : sources (v ++ w) = sources v ++ sources w.
Proof. unfold sources, alignments. rewrite omap_app, fmap_app. reflexivity. Qed.

Lemma targets_app (v w : list OutAnnotation) : targets (v ++ w) = targets v ++ targets w.
Proof. unfold targets, alignments. rewrite omap_app, fmap_app. reflexivity. Qed.

Lemma text_documents_app (v w : list OutAnnotation) :
  text_documents (v ++ w) = text_documents v ++ text_documents w.
Proof. unfold text_documents. apply omap_app. Qed.

Lemma time_point_ids_app (v w : list OutAnnotation) :
  time_point_ids (v ++ w) = time_point_ids v ++ time_point_ids w.
Proof. unfold time_point_ids, time_points. rewrite omap_app, fmap_app. reflexivity. Qed.

Lemma zip_annotations {A} (texts : list A) (anns : list string) :
  (length anns ≤ length texts)%nat → (zip texts anns).*2 = anns.
Proof.
  revert anns. induction texts as [|t texts IH]; intros [|a anns] H; simpl in *;
    try reflexivity; try lia.
  f_equal. apply IH. lia.
Qed.

(** The loop of [process_batch] adds, for every pair, a text document and
    an alignment from the pair's source to that text document. *)
Lemma emit_post (pairs : list (string * string)) (st : St) :
  ∃ st', emit sdk pairs st = (st', Ok tt)
         ∧ calls st' = calls st
         ∧ sources (new_view st') = sources (new_view st) ++ pairs.*2
         ∧ time_point_ids (new_view st') = time_point_ids (new_view st)
         ∧ (length (text_documents (new_view st'))
            = length (text_documents (new_view st)) + length pairs)%nat
         ∧ (linked (new_view st) → linked (new_view st')).
Proof.
  revert st. induction pairs as [|[text source] rest IH]; intros st.
  - exists st. simpl. rewrite app_nil_r. repeat split; auto; lia.
  - simpl. unfold bind, new_textdocument, new_alignment, add. simpl.
    match goal with |- context [emit sdk rest ?s] => destruct (IH s) as (st' & E & Hc & Hs & Ht & Hn & Hl) end.
    exists st'. rewrite E. simpl in *.
    repeat split.
    + exact Hc.
    + rewrite Hs, !sources_app. simpl. rewrite <- !app_assoc. reflexivity.
    + rewrite Ht, !time_point_ids_app. simpl. rewrite !app_nil_r. reflexivity.
    + rewrite Hn, !text_documents_app, !length_app. simpl. lia.
    + intros L. apply Hl. unfold linked in *.
      rewrite !targets_app, !text_documents_app, L. simpl.
      rewrite <- !app_assoc. reflexivity.
Qed.

(** A call of [process_batch] with no more sources than prompts either
    fails in the model and leaves the view as it was, or aligns every
    source, in order. *)
Lemma process_batch_post (prompts : list string) (images : list Image)
    (anns : list string) (st : St) :
  answers_every_prompt sdk →
  (length anns ≤ length prompts)%nat →
  ∃ st' r, process_batch sdk prompts images anns st = (st', r)
           ∧ time_point_ids (new_view st') = time_point_ids (new_view st)
           ∧ (linked (new_view st) → linked (new_view st'))
           ∧ match r with
             | Ok _ => sources (new_view st') = sources (new_view st) ++ anns
                       ∧ (length (text_documents (new_view st'))
                          = length (text_documents (new_view st)) + length anns)%nat
             | Raise _ => new_view st' = new_view st
             end.
Proof.
  intros Hmodel Hlen. unfold process_batch, bind, invoke_model.
  destruct (generate sdk prompts images) as [texts|] eqn:G.
  - match goal with |- context [emit sdk ?ps ?s] =>
      destruct (emit_post ps s) as (st' & E & _ & Hs & Ht & Hn & Hl) end.
    exists st', (Ok tt). rewrite E. simpl in *.
    pose proof (Hmodel _ _ _ G) as Hge.
    assert (Hz : (zip texts anns).*2 = anns) by (apply zip_annotations; lia).
    repeat split; auto.
    + rewrite Hs, Hz. reflexivity.
    + rewrite Hn. f_equal. rewrite <- Hz at 2. rewrite length_fmap. reflexivity.
  - eexists _, (Raise ModelError). split; [reflexivity|]. simpl. auto.
Qed.

End Emission.

(** ** The two loops *)

Section Loops.

Context {Image : Type} (sdk : Sdk Image).
Hypothesis Hmodel : answers_every_prompt sdk.

Lemma get_prompt_wrapped (label : string) (pm : gmap string string) (dp p : string) :
  get_prompt label pm dp = Some p → ∃ t, p = INST_OPEN +:+ t +:+ INST_CLOSE.
Proof.
  unfold get_prompt. destruct (String.eqb _ SKIP); [discriminate|].
  intros [= <-]. eauto.
Qed.

(** [flush_if_full] keeps the pending sources in line: what is aligned
    together with what is pending is what it was. *)
Lemma flush_if_full_post (size : Z) (b : Batch) (st : St) :
  length (b_annotations b) = length (b_prompts b) →
  ∃ st' r, flush_if_full sdk size b st = (st', r)
           ∧ time_point_ids (new_view st') = time_point_ids (new_view st)
           ∧ (linked (new_view st) → linked (new_view st'))
           ∧ match r with
             | Ok b' => length (b_annotations b') = length (b_prompts b')
                        ∧ sources (new_view st') ++ b_annotations b'
                          = sources (new_view st) ++ b_annotations b
             | Raise _ => new_view st' = new_view st
             end.
Proof.
  intros Hlen. unfold flush_if_full.
  destruct (Z.of_nat (length (b_prompts b)) =? size).
  - unfold bind.
    destruct (process_batch_post sdk (b_prompts b) (b_images b) (b_annotations b) st Hmodel)
      as (st' & r & E & Ht & Hl & Hr); [lia|].
    rewrite E. destruct r as [[]|e].
    + exists st', (Ok empty_batch). simpl. rewrite app_nil_r.
      destruct Hr as [Hs _]. auto.
    + exists st', (Raise e). auto.
  - exists st, (Ok b). simpl. auto.
Qed.

Lemma timeframe_step_post (mmif : Mmif) (parameters : Parameters)
    (timeframe : Annotation) (b : Batch) (st : St) :
  length (b_annotations b) = length (b_prompts b) →
  ∃ st' r, timeframe_step sdk mmif parameters timeframe b st = (st', r)
           ∧ time_point_ids (new_view st') = time_point_ids (new_view st)
           ∧ (linked (new_view st) → linked (new_view st'))
           ∧ match r with
             | Ok b' => non_skipped parameters timeframe = true
                        ∧ length (b_annotations b') = length (b_prompts b')
                        ∧ sources (new_view st') ++ b_annotations b'
                          = sources (new_view st) ++ b_annotations b ++ [long_id timeframe]
             | Raise _ => new_view st' = new_view st
             end.
Proof.
  intros Hlen. unfold timeframe_step, non_skipped.
  destruct (get_prompt (tf_label timeframe) (promptMap parameters) (defaultPrompt parameters))
    as [p|] eqn:G; simpl.
  - destruct (get_prompt_wrapped _ _ _ _ G) as [t ->].
    rewrite replace_wrapped_not_empty.
    match goal with |- context [flush_if_full sdk ?z ?b' st] =>
      destruct (flush_if_full_post z b' st) as (st' & r & E & Ht & Hl & Hr)
    end.
    { simpl. rewrite !length_app. simpl. lia. }
    exists st', r. rewrite E. repeat split; auto.
    destruct r as [b'|e]; [|exact Hr].
    destruct Hr as [Hlen' Hs]. simpl in Hs. auto.
  - exists st, (Raise AttributeError). auto.
Qed.

(** The loop over time frames aligns the non-skipped time frames in the
    order it meets them; when it raises, what is aligned is a beginning of
    that sequence. *)
Lemma timeframe_loop_post (mmif : Mmif) (parameters : Parameters)
    (timeframes : list Annotation) :
  ∀ (b : Batch) (st : St),
    length (b_annotations b) = length (b_prompts b) →
    ∃ st' r, timeframe_loop sdk mmif parameters timeframes b st = (st', r)
             ∧ time_point_ids (new_view st') = time_point_ids (new_view st)
             ∧ (linked (new_view st) → linked (new_view st'))
             ∧ let due := sources (new_view st) ++ b_annotations b
                          ++ (long_id <$> filter (λ tf, non_skipped parameters tf = true)
                                            timeframes) in
               match r with
               | Ok b' => length (b_annotations b') = length (b_prompts b')
                          ∧ sources (new_view st') ++ b_annotations b' = due
               | Raise _ => sources (new_view st') `prefix_of` due
               end.
Proof.
  induction timeframes as [|tf rest IH]; intros b st Hlen.
  - exists st, (Ok b). simpl. rewrite app_nil_r. auto.
  - simpl timeframe_loop. unfold bind.
    destruct (timeframe_step_post mmif parameters tf b st Hlen)
      as (st1 & r1 & E1 & Ht1 & Hl1 & Hr1).
    rewrite E1. destruct r1 as [b1|e].
    + destruct Hr1 as (Hns & Hlen1 & Hs1).
      destruct (IH b1 st1 Hlen1) as (st' & r & E & Ht & Hl & Hr).
      exists st', r. rewrite E.
      split; [reflexivity|]. split; [congruence|]. split; [auto|].
      rewrite filter_cons_True by exact Hns. simpl in *.
      assert (Hdue : sources (new_view st1) ++ b_annotations b1
                       ++ (long_id <$> filter (λ tf, non_skipped parameters tf = true) rest)
                     = sources (new_view st) ++ b_annotations b
                       ++ long_id tf
                          :: (long_id <$> filter (λ tf, non_skipped parameters tf = true) rest)).
      { rewrite app_assoc, Hs1, <- !app_assoc. reflexivity. }
      rewrite Hdue in Hr. exact Hr.
    + exists st1, (Raise e). split; [reflexivity|]. split; [exact Ht1|].
      split; [exact Hl1|]. simpl. rewrite Hr1. apply prefix_app_r. reflexivity.
Qed.

Lemma flush_rest_post (prompts : list string) (images : list Image)
    (anns : list string) (st : St) :
  length anns = length prompts →
  ∃ st' r, flush_rest sdk prompts images anns st = (st', r)
           ∧ time_point_ids (new_view st') = time_point_ids (new_view st)
           ∧ (linked (new_view st) → linked (new_view st'))
           ∧ match r with
             | Ok _ => sources (new_view st') = sources (new_view st) ++ anns
             | Raise _ => new_view st' = new_view st
             end.
Proof.
  intros Hlen. destruct prompts as [|p prompts].
  - destruct anns; [|discriminate]. exists st, (Ok tt). simpl. rewrite app_nil_r. auto.
  - simpl flush_rest.
    destruct (process_batch_post sdk (p :: prompts) images anns st Hmodel)
      as (st' & r & E & Ht & Hl & Hr); [lia|].
    exists st', r. rewrite E. repeat split; auto.
    destruct r; [apply Hr | exact Hr].
Qed.

Lemma annotate_timeframes_post (mmif : Mmif) (parameters : Parameters)
    (timeframes : list Annotation) (st : St) :
  ∃ st' r, annotate_timeframes sdk mmif parameters timeframes st = (st', r)
           ∧ (linked (new_view st) → linked (new_view st'))
           ∧ let due := sources (new_view st)
                        ++ (long_id <$> filter (λ tf, non_skipped parameters tf = true)
                                          timeframes) in
             match r with
             | Ok _ => sources (new_view st') = due
             | Raise _ => sources (new_view st') `prefix_of` due
             end.
Proof.
  unfold annotate_timeframes, bind.
  destruct (timeframe_loop_post mmif parameters timeframes empty_batch st eq_refl)
    as (st1 & r1 & E1 & _ & Hl1 & Hr1).
  rewrite E1. simpl in Hr1. destruct r1 as [b|e].
  - destruct Hr1 as [Hlen Hs].
    destruct (flush_rest_post (b_prompts b) (b_images b) (b_annotations b) st1 Hlen)
      as (st' & r & E & _ & Hl & Hr).
    exists st', r. rewrite E. split; [reflexivity|]. split; [auto|].
    simpl. rewrite <- Hs. destruct r as [[]|e'].
    + exact Hr.
    + rewrite Hr. apply prefix_app_r. reflexivity.
  - exists st1, (Raise e). auto.
Qed.

End Loops.

Section SampledLoop.

Context {Image : Type} (sdk : Sdk Image).
Hypothesis Hmodel : answers_every_prompt sdk.

Lemma append_pair_prompts (prompt : string) (image : Image) (vars : @SampleVars Image) :
  s_prompts (append_pair prompt image vars) = s_prompts vars ++ [prompt]
  ∧ s_annotations (append_pair prompt image vars) = s_annotations vars.
Proof. unfold append_pair. destruct (s_images vars); auto. Qed.

(** In the sampling loop the sources aligned so far, followed by the
    pending ones, are the time points made so far. *)
Lemma sample_loop_post (default_prompt : string) (size : Z) (frame_numbers : list Z) :
  ∀ (pos : nat) (vars : SampleVars) (st : St),
    length (s_annotations vars) = length (s_prompts vars) →
    sources (new_view st) ++ s_annotations vars = time_point_ids (new_view st) →
    ∃ st' r, sample_loop sdk default_prompt size frame_numbers pos vars st = (st', r)
             ∧ (linked (new_view st) → linked (new_view st'))
             ∧ match r with
               | Ok vars' => length (s_annotations vars') = length (s_prompts vars')
                             ∧ sources (new_view st') ++ s_annotations vars'
                               = time_point_ids (new_view st')
               | Raise _ => sources (new_view st') `prefix_of` time_point_ids (new_view st')
               end.
Proof.
  induction frame_numbers as [|frame_number rest IH]; intros pos vars st Hlen Hinv.
  - exists st, (Ok vars). simpl. auto.
  - simpl sample_loop.
    destruct (extracted vars !! pos) as [image|]; [|exists st, (Ok vars); simpl; auto].
    unfold bind at 1. unfold new_timepoint at 1.
    set (timepoint := fresh sdk TimePointT st).
    set (st1 := {| new_view := new_view st ++ [TimePoint timepoint frame_number];
                   calls := calls st |}).
    set (vars2 := append_annotation timepoint (append_pair default_prompt image vars)).
    destruct (append_pair_prompts default_prompt image vars) as [Hp Ha].
    assert (Hlen2 : length (s_annotations vars2) = length (s_prompts vars2)).
    { unfold vars2. simpl. rewrite Hp, Ha, !length_app. simpl. lia. }
    assert (Hs1 : sources (new_view st1) = sources (new_view st)).
    { unfold st1. simpl. rewrite sources_app. simpl. apply app_nil_r. }
    assert (Hl1 : linked (new_view st) → linked (new_view st1)).
    { unfold st1, linked. simpl. rewrite targets_app, text_documents_app. simpl.
      rewrite !app_nil_r. auto. }
    assert (Hinv2 : sources (new_view st1) ++ s_annotations vars2
                    = time_point_ids (new_view st1)).
    { rewrite Hs1. unfold vars2, st1. simpl.
      rewrite Ha, time_point_ids_app, app_assoc, Hinv. reflexivity. }
    unfold bind at 1.
    change (s_prompts (append_pair default_prompt image vars)) with (s_prompts vars2).
    change (s_annotations (append_pair default_prompt image vars) ++ [timepoint])
      with (s_annotations vars2).
    destruct (Z.of_nat (length (s_prompts vars2)) =? size).
    + unfold bind at 1.
      destruct (process_batch_post sdk (s_prompts vars2) (images_value vars2)
                  (s_annotations vars2) st1 Hmodel)
        as (st2 & r2 & E2 & Ht2 & Hl2 & Hr2); [lia|].
      rewrite E2. destruct r2 as [[]|e].
      * destruct Hr2 as [Hs2 _].
        destruct (IH (S pos) (rebind vars2) st2) as (st' & r & E & Hl & Hr).
        { reflexivity. }
        { simpl. rewrite app_nil_r, Hs2, Ht2. exact Hinv2. }
        exists st', r. simpl. rewrite E. repeat split; auto.
      * exists st2, (Raise e). split; [reflexivity|]. split; [auto|].
        rewrite Hr2, <- Hinv2. apply prefix_app_r. reflexivity.
    + simpl.
      destruct (IH (S pos) vars2 st1 Hlen2 Hinv2) as (st' & r & E & Hl & Hr).
      exists st', r. rewrite E. repeat split; auto.
Qed.

Lemma annotate_sampled_post (video_doc : Document) (parameters : Parameters) (st : St) :
  sources (new_view st) = time_point_ids (new_view st) →
  ∃ st' r, annotate_sampled sdk video_doc parameters st = (st', r)
           ∧ (linked (new_view st) → linked (new_view st'))
           ∧ match r with
             | Ok _ => sources (new_view st') = time_point_ids (new_view st')
             | Raise _ => sources (new_view st') `prefix_of` time_point_ids (new_view st')
             end.
Proof.
  intros Hinv. unfold annotate_sampled.
  destruct (py_range 0 (get_frame_count sdk video_doc) (frame_interval parameters))
    as [frame_numbers|e].
  - unfold bind.
    match goal with |- context [sample_loop sdk ?dp ?bs ?fns ?pos ?vars st] =>
      destruct (sample_loop_post dp bs fns pos vars st) as (st1 & r1 & E1 & Hl1 & Hr1)
    end.
    { reflexivity. }
    { simpl. rewrite app_nil_r. exact Hinv. }
    rewrite E1. destruct r1 as [vars|e].
    + destruct Hr1 as [Hlen Hs].
      destruct (flush_rest_post sdk Hmodel (s_prompts vars) (images_value vars)
                  (s_annotations vars) st1 Hlen)
        as (st' & r & E & Ht & Hl & Hr).
      exists st', r. rewrite E. split; [reflexivity|]. split; [auto|].
      destruct r as [[]|e'].
      * rewrite Hr, Ht. exact Hs.
      * rewrite Hr, <- Hs. apply prefix_app_r. reflexivity.
    + exists st1, (Raise e). auto.
  - exists st, (Raise e). split; [reflexivity|]. split; [auto|].
    rewrite Hinv. reflexivity.
Qed.

End SampledLoop.

(** ** Order of the alignments *)

Section Order.

Context {Image : Type} (sdk : Sdk Image).
Hypothesis Hmodel : answers_every_prompt sdk.

(** Whatever way the request ends, the new view is linked and the sources
    of its alignments are a beginning of the span identifiers; they are all
    of them when the request completes. *)
Lemma annotate_post (mmif : Mmif) (parameters : Parameters) (view : list OutAnnotation) :
  out_view (_annotate sdk mmif parameters) = Some view →
  linked view
  ∧ sources view `prefix_of` span_ids sdk mmif parameters view
  ∧ (status (_annotate sdk mmif parameters) = Ok tt →
     sources view = span_ids sdk mmif parameters view).
Proof.
  unfold _annotate, span_ids.
  destruct (find_input sdk mmif) as [[video_doc input_view]|e]; [|discriminate].
  set (st0 := {| new_view := []; calls := @nil (Call Image) |}).
  cbn [py_bool].
  destruct (py_list (get_annotations input_view TimeFrameT)) as [|tf rest].
  - cbn. intros [= <-]. repeat split; reflexivity.
  - destruct (annotate_timeframes_post sdk Hmodel mmif parameters (tf :: rest) st0)
      as (st' & r & E & Hl & Hr).
    rewrite E. simpl. intros [= <-].
    split; [apply Hl; reflexivity|].
    simpl in Hr. destruct r as [[]|e]; [|split; [exact Hr | discriminate]].
    rewrite Hr. split; [reflexivity | auto].
Qed.

(** C5. Provided the model gives back a caption for every prompt, the
    alignment at position [i] of the new view has for source the span
    identifier at position [i] (the non-skipped time frames in input order,
    or the synthesized time points in creation order) and for target the
    text document at position [i] of the new view. *)
Theorem alignments_follow_spans (mmif : Mmif) (parameters : Parameters)
    (view : list OutAnnotation) (i : nat) (source target : string) :
  out_view (_annotate sdk mmif parameters) = Some view →
  alignments view !! i = Some (source, target) →
  span_ids sdk mmif parameters view !! i = Some source
  ∧ text_documents view !! i = Some target.
Proof.
  intros Hview Hal.
  destruct (annotate_post mmif parameters view Hview) as (Hl & Hp & _).
  split.
  - apply (prefix_lookup_Some (sources view)); [|exact Hp].
    unfold sources. rewrite list_lookup_fmap, Hal. reflexivity.
  - rewrite <- Hl. unfold targets. rewrite list_lookup_fmap, Hal. reflexivity.
Qed.

(** X17. Provided the model gives back a caption for every prompt, a
    request that completes gives every span its text document and its
    alignment. *)
Lemma completed_request_aligns_every_span (mmif : Mmif) (parameters : Parameters)
    (view : list OutAnnotation) :
  out_view (_annotate sdk mmif parameters) = Some view →
  status (_annotate sdk mmif parameters) = Ok tt →
  sources view = span_ids sdk mmif parameters view
  ∧ length (alignments view) = length (span_ids sdk mmif parameters view)
  ∧ length (text_documents view) = length (span_ids sdk mmif parameters view).
Proof.
  intros Hview Hok.
  destruct (annotate_post mmif parameters view Hview) as (Hl & _ & Hs).
  specialize (Hs Hok). split; [exact Hs|].
  rewrite <- Hs, <- Hl. unfold sources, targets. rewrite !length_fmap. auto.
Qed.

End Order.

Lemma stub_answers_every_prompt : answers_every_prompt Fixture.stub.
Proof. intros prompts images texts [= <-]. rewrite length_map. reflexivity. Qed.

Lemma alignments_follow_spans_witness :
  let parameters := Fixture.params ∅ None (Some 2) in
  let mmif := Fixture.request [Fixture.tf_1; Fixture.tf_2; Fixture.tf_3] in
  let view := [ TextDocument "v_1:td_1" "a caption";
                Alignment "v_1:al_1" "v_0:tf_1" "v_1:td_1";
                TextDocument "v_1:td_2" "a caption";
                Alignment "v_1:al_2" "v_0:tf_2" "v_1:td_2";
                TextDocument "v_1:td_3" "a caption";
                Alignment "v_1:al_3" "v_0:tf_3" "v_1:td_3" ] in
  out_view (_annotate Fixture.stub mmif parameters) = Some view
  ∧ alignments view !! 2%nat = Some ("v_0:tf_3"%string, "v_1:td_3"%string)
  ∧ span_ids Fixture.stub mmif parameters view !! 2%nat = Some "v_0:tf_3"%string
  ∧ text_documents view !! 2%nat = Some "v_1:td_3"%string.
Proof.
  intros parameters mmif view.
  assert (Hview : out_view (_annotate Fixture.stub mmif parameters) = Some view)
    by (vm_compute; reflexivity).
  assert (Hal : alignments view !! 2%nat = Some ("v_0:tf_3"%string, "v_1:td_3"%string))
    by reflexivity.
  split; [exact Hview|]. split; [exact Hal|].
  exact (alignments_follow_spans Fixture.stub stub_answers_every_prompt mmif parameters
           view 2 "v_0:tf_3" "v_1:td_3" Hview Hal).
Defined.

(** ** Batches of a request over time frames *)

Section Batches.

Context {Image : Type} (sdk : Sdk Image).
Variable size : nat.
Hypothesis Hsize : (1 ≤ size)%nat.

Lemma process_batch_calls (prompts : list string) (images : list Image)
    (anns : list string) (st : St) :
  calls (process_batch sdk prompts images anns st).1
  = calls st ++ [ {| call_prompts := prompts; call_images := images;
                     call_annotations := anns |} ].
Proof.
  unfold process_batch, bind, invoke_model.
  destruct (generate sdk prompts images) as [texts|]; [|reflexivity].
  match goal with |- context [emit sdk ?ps ?s] =>
    destruct (emit_post sdk ps s) as (st' & E & Hc & _) end.
  rewrite E. simpl. exact Hc.
Qed.

Lemma called_sources_app (cs ds : list (Call Image)) :
  called_sources (cs ++ ds) = called_sources cs ++ called_sources ds.
Proof. unfold called_sources. rewrite fmap_app, concat_app. reflexivity. Qed.

Lemma timeframe_step_calls (mmif : Mmif) (parameters : Parameters)
    (timeframe : Annotation) (b : Batch) (st : St) (n : nat) :
  batch_size parameters = Z.of_nat size →
  batch_length n b → (n < size)%nat →
  Forall (call_size size) (calls st) →
  ∃ st' r, timeframe_step sdk mmif parameters timeframe b st = (st', r)
           ∧ Forall (call_size size) (calls st')
           ∧ match r with
             | Ok b' => non_skipped parameters timeframe = true
                        ∧ (∃ n', batch_length n' b' ∧ (n' < size)%nat)
                        ∧ called_sources (calls st') ++ b_annotations b'
                          = called_sources (calls st) ++ b_annotations b
                            ++ [long_id timeframe]
             | Raise _ => True
             end.
Proof.
  intros Hbs Hb Hn Hcalls. unfold timeframe_step, non_skipped.
  destruct (get_prompt (tf_label timeframe) (promptMap parameters) (defaultPrompt parameters))
    as [p|] eqn:G; simpl; [|exists st, (Raise AttributeError); auto].
  destruct (get_prompt_wrapped _ _ _ _ G) as [t ->].
  rewrite replace_wrapped_not_empty.
  set (b1 := push _ _ (long_id timeframe) b).
  assert (Hb1 : batch_length (S n) b1).
  { destruct Hb as (H1 & H2 & H3). unfold b1, batch_length. simpl.
    rewrite !length_app. simpl. lia. }
  unfold flush_if_full. rewrite Hbs.
  destruct (Z.eqb_spec (Z.of_nat (length (b_prompts b1))) (Z.of_nat size)) as [Hfull|Hnot].
  - unfold bind, ret.
    pose proof (process_batch_calls (b_prompts b1) (b_images b1) (b_annotations b1) st) as Hc.
    destruct (process_batch sdk (b_prompts b1) (b_images b1) (b_annotations b1) st)
      as [st1 r1]; cbn [fst] in Hc.
    assert (Hcalls1 : Forall (call_size size) (calls st1)).
    { rewrite Hc. apply Forall_app. split; [exact Hcalls|].
      apply Forall_singleton. destruct Hb1 as (H1 & H2 & H3).
      unfold call_size. cbn [call_prompts call_images call_annotations]. lia. }
    destruct r1 as [[]|e].
    + exists st1, (Ok empty_batch). repeat split; auto.
      * exists 0%nat. repeat split. lia.
      * rewrite Hc, called_sources_app. unfold called_sources at 2. simpl.
        rewrite !app_nil_r. reflexivity.
    + exists st1, (Raise e). auto.
  - exists st, (Ok b1). repeat split; auto.
    exists (S n). split; [exact Hb1|]. destruct Hb1 as (H1 & _). lia.
Qed.

(** Inside the loop every call is a full batch, and fewer than [size]
    items are pending between two iterations. *)
Lemma timeframe_loop_calls (mmif : Mmif) (parameters : Parameters)
    (timeframes : list Annotation) :
  batch_size parameters = Z.of_nat size →
  ∀ (b : Batch) (st : St) (n : nat),
    batch_length n b → (n < size)%nat →
    Forall (call_size size) (calls st) →
    ∃ st' r, timeframe_loop sdk mmif parameters timeframes b st = (st', r)
             ∧ Forall (call_size size) (calls st')
             ∧ match r with
               | Ok b' => (∃ n', batch_length n' b' ∧ (n' < size)%nat)
                          ∧ called_sources (calls st') ++ b_annotations b'
                            = called_sources (calls st) ++ b_annotations b
                              ++ (long_id <$> filter (λ tf, non_skipped parameters tf = true)
                                                timeframes)
               | Raise _ => True
               end.
Proof.
  intros Hbs. induction timeframes as [|tf rest IH]; intros b st n Hb Hn Hcalls.
  - exists st, (Ok b). simpl. rewrite app_nil_r. repeat split; eauto.
  - simpl timeframe_loop. unfold bind.
    destruct (timeframe_step_calls mmif parameters tf b st n Hbs Hb Hn Hcalls)
      as (st1 & r1 & E1 & Hcalls1 & Hr1).
    rewrite E1. destruct r1 as [b1|e]; [|exists st1, (Raise e); auto].
    destruct Hr1 as (Hns & (n1 & Hb1 & Hn1) & Hs1).
    destruct (IH b1 st1 n1 Hb1 Hn1 Hcalls1) as (st' & r & E & Hall & Hr).
    exists st', r. rewrite E. split; [reflexivity|]. split; [exact Hall|].
    destruct r as [b'|e]; [|exact I].
    destruct Hr as [Hn' Hs]. split; [exact Hn'|].
    rewrite filter_cons_True by exact Hns. rewrite fmap_cons.
    rewrite Hs, app_assoc, Hs1, <- !app_assoc. reflexivity.
Qed.

Lemma called_sources_length (cs : list (Call Image)) :
  Forall (call_size size) cs → length (called_sources cs) = (size * length cs)%nat.
Proof.
  induction 1 as [|c cs Hc _ IH]; [simpl; lia|].
  change (called_sources (c :: cs)) with (call_annotations c ++ called_sources cs).
  rewrite length_app, IH. destruct Hc as (_ & _ & ->). simpl. lia.
Qed.

(** Batching of a request over time frames that completes, for a batch
    size of at least one: the calls receive, in order, all the non-skipped
    time frames, every call but the last receives exactly [size] items, the
    last one at least one and at most [size], and there are
    [ceil(N / size)] calls. *)
Lemma completed_timeframes_batches (mmif : Mmif) (parameters : Parameters)
    (timeframes : list Annotation) (st' : St) :
  batch_size parameters = Z.of_nat size →
  annotate_timeframes sdk mmif parameters timeframes {| new_view := []; calls := [] |}
  = (st', Ok tt) →
  let due := long_id <$> filter (λ tf, non_skipped parameters tf = true) timeframes in
  called_sources (calls st') = due
  ∧ (∃ full rest, calls st' = full ++ rest
                  ∧ Forall (call_size size) full
                  ∧ (rest = [] ∨ ∃ c n, rest = [c] ∧ call_size n c ∧ (1 ≤ n < size)%nat))
  ∧ Z.of_nat (length (calls st')) = (Z.of_nat (length due) + Z.of_nat size - 1) / Z.of_nat size.
Proof.
  intros Hbs. unfold annotate_timeframes, bind.
  set (st0 := {| new_view := []; calls := @nil (Call Image) |}).
  destruct (timeframe_loop_calls mmif parameters timeframes Hbs empty_batch st0 0%nat)
    as (st1 & r1 & E1 & Hall & Hres); [repeat split | lia | constructor |].
  rewrite E1. destruct r1 as [b|e]; [|discriminate]. simpl in Hres.
  destruct Hres as [(n & Hb & Hn) Hs].
  pose proof called_sources_length as Hcount.
  destruct Hb as (Hp & Hi & Ha).
  destruct (b_prompts b) as [|p ps] eqn:Eb; simpl flush_rest.
  - intros [= <-]. simpl in Hp. subst n.
    destruct (b_annotations b); [|discriminate]. rewrite app_nil_r in Hs.
    split; [exact Hs|]. split.
    + exists (calls st1), []. rewrite app_nil_r. auto.
    + rewrite <- Hs, (Hcount _ Hall), Nat2Z.inj_mul.
      apply (Z.div_unique _ _ _ (Z.of_nat size - 1)); lia.
  - intros Hrun.
    pose proof (process_batch_calls (p :: ps) (b_images b) (b_annotations b) st1) as Hc.
    rewrite Hrun in Hc. simpl in Hc.
    assert (Hlast : call_size n {| call_prompts := p :: ps; call_images := b_images b;
                                   call_annotations := b_annotations b |})
      by (unfold call_size; simpl in *; auto).
    assert (Hn1 : (1 ≤ n)%nat) by (simpl in Hp; lia).
    split; [|split].
    + rewrite Hc, called_sources_app. unfold called_sources at 2. simpl.
      rewrite app_nil_r. exact Hs.
    + exists (calls st1), [ {| call_prompts := p :: ps; call_images := b_images b;
                               call_annotations := b_annotations b |} ].
      split; [exact Hc|]. split; [exact Hall|]. right. eauto 10.
    + rewrite <- Hs, Hc, !length_app, (Hcount _ Hall), Ha.
      rewrite !Nat2Z.inj_add, Nat2Z.inj_mul. simpl length.
      apply (Z.div_unique _ _ _ (Z.of_nat n - 1)); lia.
Qed.

End Batches.


(** ** The defects, for any collaborators *)

Section Defects.

Context {Image : Type} (sdk : Sdk Image).

(** A time frame that resolves to the skip sentinel ends the request. *)
Lemma skipped_timeframe_raises (mmif : Mmif) (parameters : Parameters)
    (timeframe : Annotation) (b : Batch) (st : St) :
  non_skipped parameters timeframe = false →
  timeframe_step sdk mmif parameters timeframe b st = (st, Raise AttributeError).
Proof.
  unfold non_skipped, timeframe_step.
  destruct (get_prompt (tf_label timeframe) (promptMap parameters) (defaultPrompt parameters));
    [discriminate | reflexivity].
Qed.

Lemma timeframe_loop_completes (mmif : Mmif) (parameters : Parameters)
    (timeframes : list Annotation) :
  ∀ (b b' : Batch) (st st' : St),
    timeframe_loop sdk mmif parameters timeframes b st = (st', Ok b') →
    Forall (λ tf, non_skipped parameters tf = true) timeframes.
Proof.
  induction timeframes as [|tf rest IH]; intros b b' st st' H; [constructor|].
  simpl in H. unfold bind in H.
  destruct (non_skipped parameters tf) eqn:Hns.
  - constructor; [exact Hns|].
    destruct (timeframe_step sdk mmif parameters tf b st) as [st1 [b1|e]]; [eauto | discriminate].
  - rewrite (skipped_timeframe_raises mmif parameters tf b st Hns) in H. discriminate.
Qed.

(** No request over time frames completes when one of them is to be
    skipped. *)
Lemma completed_request_skipped_nothing (mmif : Mmif) (parameters : Parameters)
    (timeframes : list Annotation) (st st' : St) :
  annotate_timeframes sdk mmif parameters timeframes st = (st', Ok tt) →
  Forall (λ tf, non_skipped parameters tf = true) timeframes.
Proof.
  unfold annotate_timeframes, bind. intros H.
  destruct (timeframe_loop sdk mmif parameters timeframes empty_batch st) as [st1 [b|e]] eqn:E;
    [|discriminate].
  eapply timeframe_loop_completes, E.
Qed.

(** Four sampled frames with a batch size of four: whatever the four
    extracted images are, the one call of the model receives them twice. *)
Lemma sampled_images_are_doubled (video_doc : Document) (parameters : Parameters)
    (a b c d : Image) (st : St) :
  get_frame_count sdk video_doc = 100 →
  frameInterval parameters = Some 25 →
  batchSize parameters = Some 4 →
  extract_frames_as_images sdk video_doc [0; 25; 50; 75] = [a; b; c; d] →
  ∃ sources,
    calls (annotate_sampled sdk video_doc parameters st).1
    = calls st ++ [ {| call_prompts := replicate 4 (defaultPrompt parameters);
                       call_images := [a; b; c; d; a; b; c; d];
                       call_annotations := sources |} ].
Proof.
  intros Hcount Hfi Hbs Himages.
  unfold annotate_sampled, frame_interval, batch_size.
  rewrite Hcount, Hfi, Hbs.
  change (py_range 0 100 (default 30 (Some 25))) with (Ok (A := list Z) [0; 25; 50; 75]).
  cbv iota. rewrite Himages.
  eexists. unfold bind. simpl sample_loop. unfold bind. simpl.
  match goal with |- context [process_batch sdk ?ps ?imgs ?srcs ?s] =>
    pose proof (process_batch_calls sdk ps imgs srcs s) as Hc;
    destruct (process_batch sdk ps imgs srcs s) as [st1 [[]|e]]
  end; simpl in *; rewrite Hc; reflexivity.
Qed.

End Defects.


(** * Further properties *)

(** ** Prompts and contexts *)

Section PromptFacts.

Import PyStr.

Lemma str_app_assoc (a b c : string) : (a +:+ b) +:+ c = a +:+ b +:+ c.
Proof.
  induction a as [|x a IH]; [reflexivity|].
  change (String x ((a +:+ b) +:+ c) = String x (a +:+ b +:+ c)). congruence.
Qed.

Lemma starts_with_app_self (old b : string) : starts_with old (old +:+ b) = true.
Proof.
  induction old as [|c old IH]; [reflexivity|].
  simpl. destruct (ascii_dec c c); [exact IH | contradiction].
Qed.

Lemma replace_from_skip (old new s b : string) :
  replace_from old new (String.length s) (s +:+ b) = replace_from old new O b.
Proof. induction s as [|c s IH]; [reflexivity | exact IH]. Qed.

(** At an occurrence of [old], [new] is put and the scan goes on behind
    the occurrence. *)
Lemma replace_from_occurrence (c0 : ascii) (old' new b : string) :
  replace_from (String c0 old') new O (String c0 old' +:+ b)
  = new +:+ replace_from (String c0 old') new O b.
Proof.
  change (replace_from (String c0 old') new O (String c0 old' +:+ b))
    with (if starts_with (String c0 old') (String c0 old' +:+ b)
          then new +:+ replace_from (String c0 old') new (String.length old') (old' +:+ b)
          else String c0 (replace_from (String c0 old') new O (old' +:+ b))).
  rewrite starts_with_app_self, replace_from_skip. reflexivity.
Qed.

(** When the first character of [old] occurs nowhere else in it, a text
    without [old] stays as it is in front of an occurrence. *)
Lemma replace_from_before (c0 : ascii) (old' new a b : string) :
  has_char c0 old' = false →
  contains (String c0 old') a = false →
  replace_from (String c0 old') new O (a +:+ String c0 old' +:+ b)
  = a +:+ replace_from (String c0 old') new O (String c0 old' +:+ b).
Proof.
  intros Hc. induction a as [|x a IH]; intros Ha; [reflexivity|].
  simpl in Ha. apply orb_false_iff in Ha as [Hhere Hrest].
  change (replace_from (String c0 old') new O (String x a +:+ String c0 old' +:+ b))
    with (if starts_with (String c0 old') (String x (a +:+ String c0 (old' +:+ b)))
          then new +:+ replace_from (String c0 old') new (String.length old')
                         (a +:+ String c0 old' +:+ b)
          else String x (replace_from (String c0 old') new O (a +:+ String c0 old' +:+ b))).
  destruct (starts_with (String c0 old') (String x (a +:+ String c0 (old' +:+ b)))) eqn:E.
  - exfalso. simpl in E, Hhere. destruct (ascii_dec c0 x); [|discriminate].
    apply starts_with_app_stop in E; [congruence | exact Hc].
  - rewrite (IH Hrest). reflexivity.
Qed.

Lemma replace_placeholder (a b context : string) :
  contains PLACEHOLDER a = false →
  contains PLACEHOLDER b = false →
  replace (a +:+ PLACEHOLDER +:+ b) PLACEHOLDER context = a +:+ context +:+ b.
Proof.
  intros Ha Hb. unfold replace. change (is_empty PLACEHOLDER) with false. cbv iota.
  unfold PLACEHOLDER in *.
  rewrite replace_from_before, replace_from_occurrence, replace_from_absent;
    [reflexivity | exact Hb | reflexivity | exact Ha].
Qed.

Lemma placeholder_not_skip (a b : string) :
  String.eqb (a +:+ PLACEHOLDER +:+ b) SKIP = false.
Proof.
  destruct a as [|c [|c' a]]; [reflexivity | |]; simpl; destruct (Ascii.eqb c _); reflexivity.
Qed.

(** X1. A time frame is skipped exactly when its label is mapped to ["-"],
    or is not mapped at all while the default prompt is ["-"]. *)
Theorem get_prompt_none_iff (label : string) (prompt_map : gmap string string)
    (default_prompt : string) :
  get_prompt label prompt_map default_prompt = None
  ↔ prompt_map !! label = Some SKIP
    ∨ (prompt_map !! label = None ∧ default_prompt = SKIP).
Proof.
  unfold get_prompt.
  destruct (prompt_map !! label) as [t|]; simpl.
  - destruct (String.eqb_spec t SKIP) as [->|Hne]; split; auto.
    + discriminate.
    + intros [[= H]|[[=] _]]. contradiction.
  - destruct (String.eqb_spec default_prompt SKIP) as [->|Hne]; split; auto.
    + discriminate.
    + intros [[=]|[_ H]]. contradiction.
Qed.

(** X2. A template with one placeholder, resolved for a label, is rendered
    with the context in the place of the placeholder, between the two
    instruction marks; the context is put as it is, it is not searched for
    placeholders. *)
Theorem single_placeholder_rendering (label : string) (prompt_map : gmap string string)
    (default_prompt context a b : string) :
  default default_prompt (prompt_map !! label) = a +:+ PLACEHOLDER +:+ b →
  contains PLACEHOLDER a = false →
  contains PLACEHOLDER b = false →
  substitute_context (get_prompt label prompt_map default_prompt) context
  = Ok (INST_OPEN +:+ a +:+ context +:+ b +:+ INST_CLOSE).
Proof.
  intros Hres Ha Hb. unfold get_prompt. rewrite Hres, placeholder_not_skip.
  unfold substitute_context. f_equal.
  assert (Hshape : INST_OPEN +:+ (a +:+ PLACEHOLDER +:+ b) +:+ INST_CLOSE
                   = (INST_OPEN +:+ a) +:+ PLACEHOLDER +:+ (b +:+ INST_CLOSE)).
  { rewrite !str_app_assoc. reflexivity. }
  rewrite Hshape, replace_placeholder.
  - rewrite !str_app_assoc. reflexivity.
  - unfold INST_OPEN. simpl. exact Ha.
  - apply contains_app_stop; [reflexivity | exact Hb | reflexivity].
Qed.

(** X3. Whatever the template and the context, a rendered prompt begins
    with [[INST] <image>] and a line feed; it is never empty, so the test of
    lines 93 and 94 never passes over a time frame. *)
Theorem rendered_prompt_keeps_its_head (label : string) (prompt_map : gmap string string)
    (default_prompt context prompt : string) :
  substitute_context (get_prompt label prompt_map default_prompt) context = Ok prompt →
  starts_with INST_OPEN prompt = true ∧ is_empty prompt = false.
Proof.
  unfold get_prompt. destruct (String.eqb _ SKIP); [discriminate|].
  intros [= <-]. split; reflexivity.
Qed.

End PromptFacts.

Lemma single_placeholder_rendering_witness :
  substitute_context
    (get_prompt "slate" {[ "slate"%string := "Heard: [CONTEXT]. Describe."%string ]}
       Fixture.describe)
    "spoken words"
  = Ok (INST_OPEN +:+ "Heard: " +:+ "spoken words" +:+ ". Describe." +:+ INST_CLOSE).
Proof.
  apply (single_placeholder_rendering "slate"
           {[ "slate"%string := "Heard: [CONTEXT]. Describe."%string ]}
           Fixture.describe "spoken words" "Heard: " ". Describe.");
    reflexivity.
Defined.

Lemma rendered_prompt_keeps_its_head_witness :
  PyStr.starts_with INST_OPEN
    (INST_OPEN +:+ "spoken words" +:+ INST_CLOSE) = true
  ∧ PyStr.is_empty (INST_OPEN +:+ "spoken words" +:+ INST_CLOSE) = false.
Proof.
  apply (rendered_prompt_keeps_its_head "slate" ∅ "[CONTEXT]" "spoken words").
  reflexivity.
Defined.

(** ** Truncation and stripping *)

Section TextFacts.

Import PyStr.

Lemma take_chars_prefix (n : nat) (s : string) : ∃ rest, s = take_chars n s +:+ rest.
Proof.
  revert s. induction n as [|n IH]; intros s; [exists s; destruct s; reflexivity|].
  destruct s as [|c r]; [exists EmptyString; reflexivity|].
  destruct (IH r) as [rest Hrest]. exists rest.
  change (String c r = String c (take_chars n r +:+ rest)). congruence.
Qed.

Lemma take_chars_min (n : nat) (s : string) :
  String.length (take_chars n s) = Nat.min n (String.length s).
Proof.
  revert s. induction n as [|n IH]; intros [|c r]; simpl; try reflexivity.
  rewrite IH. reflexivity.
Qed.

(** X4. The context of a time frame is the beginning of the text aligned
    with it: all of it when it has at most 200 characters, its first 200
    characters otherwise. *)
Theorem context_is_the_beginning_of_the_text {Image : Type} (sdk : Sdk Image)
    (mmif : Mmif) (timeframe : Annotation) :
  let text := slice_text sdk mmif (tf_start timeframe) (tf_end timeframe) in
  let context := get_context sdk mmif timeframe MAX_CHARACTERS in
  (∃ rest, text = context +:+ rest)
  ∧ String.length context = Nat.min 200 (String.length text)
  ∧ ((String.length text ≤ 200)%nat → context = text).
Proof.
  intros text context. unfold context, get_context, slice_to, MAX_CHARACTERS. fold text.
  change (0 <=? 200) with true. cbv iota.
  change (Z.to_nat 200) with 200%nat.
  split; [apply take_chars_prefix|]. split; [apply take_chars_min|].
  intros Hshort. generalize 200%nat, text, Hshort. clear.
  induction n as [|n IH]; intros [|c r] H; simpl in *; try reflexivity; try lia.
  f_equal. apply IH. lia.
Qed.

Lemma lstrip_head (s : string) (c : ascii) (r : string) :
  lstrip s = String c r → is_space c = false.
Proof.
  induction s as [|x s IH]; [discriminate|].
  simpl. destruct (is_space x) eqn:E; [exact IH|]. intros [= <- _]. exact E.
Qed.

Lemma rstrip_last (s r : string) (c : ascii) :
  rstrip s = r +:+ String c EmptyString → is_space c = false.
Proof.
  revert r. induction s as [|x s IH]; intros r; [destruct r; discriminate|].
  simpl. destruct (is_space x && is_empty (rstrip s)) eqn:E.
  - destruct r; discriminate.
  - destruct r as [|y r]; simpl.
    + intros [= -> Hs]. rewrite Hs in E. simpl in E.
      rewrite andb_true_r in E. exact E.
    + intros [= _ Hs]. eauto.
Qed.

Lemma rstrip_idempotent (s : string) : rstrip (rstrip s) = rstrip s.
Proof.
  induction s as [|x s IH]; [reflexivity|].
  simpl. destruct (is_space x && is_empty (rstrip s)) eqn:E; [reflexivity|].
  simpl. rewrite IH, E. reflexivity.
Qed.

Lemma rstrip_keeps_head (c : ascii) (r : string) :
  is_space c = false → ∃ r', rstrip (String c r) = String c r'.
Proof. intros H. simpl. rewrite H. simpl. eauto. Qed.

Lemma strip_head (s : string) (c : ascii) (r : string) :
  strip s = String c r → is_space c = false.
Proof.
  unfold strip. destruct (lstrip s) as [|x t] eqn:E; [discriminate|].
  pose proof (lstrip_head _ _ _ E) as Hx.
  destruct (rstrip_keeps_head x t Hx) as [r' ->]. intros [= <- _]. exact Hx.
Qed.

Lemma strip_idempotent (s : string) : strip (strip s) = strip s.
Proof.
  unfold strip. destruct (lstrip s) as [|x t] eqn:E; [reflexivity|].
  pose proof (lstrip_head _ _ _ E) as Hx.
  destruct (rstrip_keeps_head x t Hx) as [r' Hr]. rewrite Hr.
  simpl lstrip. rewrite Hx, <- Hr. apply rstrip_idempotent.
Qed.

End TextFacts.

(** ** What one call of [process_batch] does *)

Section Shapes.

Context {Image : Type} (sdk : Sdk Image).

Lemma emit_shape (pairs : list (string * string)) :
  ∀ st : St,
    ∃ ids, length ids = length pairs
           ∧ emit sdk pairs st
             = ({| new_view := new_view st ++ pair_objects pairs ids; calls := calls st |},
                Ok tt).
Proof.
  induction pairs as [|[text source] rest IH]; intros st.
  - exists []. split; [reflexivity|]. simpl. unfold ret, pair_objects. simpl.
    rewrite app_nil_r. destruct st; reflexivity.
  - simpl. unfold bind, new_textdocument, new_alignment, add. simpl.
    match goal with |- context [emit sdk rest ?s] => destruct (IH s) as (ids & Hlen & E) end.
    match goal with |- context [Alignment ?j source ?i] => exists ((i, j) :: ids) end.
    split; [simpl; congruence|]. rewrite E. simpl.
    unfold pair_objects. simpl. rewrite <- !app_assoc. reflexivity.
Qed.

(** [process_batch] records the call, then either the model fails and the
    view stays as it is, or the pairs of captions and sources are added. *)
Lemma process_batch_shape (prompts : list string) (images : list Image)
    (anns : list string) (st : St) :
  let call := {| call_prompts := prompts; call_images := images;
                 call_annotations := anns |} in
  match generate sdk prompts images with
  | None =>
      process_batch sdk prompts images anns st
      = ({| new_view := new_view st; calls := calls st ++ [call] |}, Raise ModelError)
  | Some texts =>
      ∃ ids, length ids = length (zip texts anns)
             ∧ process_batch sdk prompts images anns st
               = ({| new_view := new_view st ++ pair_objects (zip texts anns) ids;
                     calls := calls st ++ [call] |}, Ok tt)
  end.
Proof.
  intros call. unfold process_batch, bind, invoke_model.
  destruct (generate sdk prompts images) as [texts|]; [|reflexivity].
  match goal with |- context [emit sdk ?ps ?s] => destruct (emit_shape ps s) as (ids & Hlen & E) end.
  exists ids. split; [exact Hlen|]. rewrite E. reflexivity.
Qed.

Lemma zip_firsts {A B} (xs : list A) (ys : list B) : (zip xs ys).*1 = take (length ys) xs.
Proof.
  revert ys. induction xs as [|x xs IH]; intros [|y ys]; simpl; try reflexivity.
  f_equal. apply IH.
Qed.

Lemma zip_seconds {A B} (xs : list A) (ys : list B) : (zip xs ys).*2 = take (length xs) ys.
Proof.
  revert ys. induction xs as [|x xs IH]; intros [|y ys]; simpl; try reflexivity.
  f_equal. apply IH.
Qed.

Lemma zip_length {A B} (xs : list A) (ys : list B) :
  length (zip xs ys) = Nat.min (length xs) (length ys).
Proof.
  revert ys. induction xs as [|x xs IH]; intros [|y ys]; simpl; try reflexivity.
  f_equal. apply IH.
Qed.

Lemma pair_objects_sources (pairs ids : list (string * string)) :
  length ids = length pairs → sources (pair_objects pairs ids) = pairs.*2.
Proof.
  revert ids. induction pairs as [|p pairs IH]; intros [|i ids] H; try discriminate;
    [reflexivity|].
  unfold pair_objects in *. simpl. change (p.2 :: sources (concat (zip_with
    (λ pair id, [TextDocument id.1 (PyStr.strip pair.1); Alignment id.2 pair.2 id.1])
    pairs ids)) = p.2 :: pairs.*2).
  f_equal. apply IH. simpl in H. congruence.
Qed.

Lemma pair_objects_texts (pairs ids : list (string * string)) :
  length ids = length pairs → texts (pair_objects pairs ids) = PyStr.strip <$> pairs.*1.
Proof.
  revert ids. induction pairs as [|p pairs IH]; intros [|i ids] H; try discriminate;
    [reflexivity|].
  unfold pair_objects in *. simpl. f_equal. apply IH. simpl in H. congruence.
Qed.

Lemma pair_objects_stripped (pairs ids : list (string * string)) :
  Forall stripped_text (pair_objects pairs ids).
Proof.
  revert ids. induction pairs as [|p pairs IH]; intros [|i ids]; try constructor.
  - apply strip_idempotent.
  - constructor; [exact I | apply IH].
Qed.

Lemma pair_objects_captions (pairs ids : list (string * string)) :
  Forall caption_object (pair_objects pairs ids).
Proof.
  revert ids. induction pairs as [|p pairs IH]; intros [|i ids]; try constructor.
  - exact I.
  - constructor; [exact I | apply IH].
Qed.

Lemma texts_app (v w : list OutAnnotation) : texts (v ++ w) = texts v ++ texts w.
Proof. unfold texts. apply omap_app. Qed.

(** X5. When the model answers a call, [zip] pairs captions and sources
    up to the shorter of the two lists: captions beyond the sources are
    dropped, sources beyond the captions get no text document, and every
    caption kept is stored stripped, with its alignment. *)
Theorem process_batch_pairs_up_to_the_shorter (prompts : list string)
    (images : list Image) (anns captions : list string) (st : St) :
  generate sdk prompts images = Some captions →
  let after := process_batch sdk prompts images anns st in
  after.2 = Ok tt
  ∧ sources (new_view after.1) = sources (new_view st) ++ take (length captions) anns
  ∧ texts (new_view after.1)
    = texts (new_view st) ++ (PyStr.strip <$> take (length anns) captions)
  ∧ length (alignments (new_view after.1))
    = (length (alignments (new_view st)) + Nat.min (length captions) (length anns))%nat.
Proof.
  intros G after. unfold after.
  pose proof (process_batch_shape prompts images anns st) as H. simpl in H. rewrite G in H.
  destruct H as (ids & Hlen & ->). simpl.
  split; [reflexivity|]. split; [|split].
  - rewrite sources_app, pair_objects_sources, zip_seconds by exact Hlen. reflexivity.
  - rewrite texts_app, pair_objects_texts, zip_firsts by exact Hlen. reflexivity.
  - pose proof (sources_app (new_view st) (pair_objects (zip captions anns) ids)) as Hs.
    unfold sources in Hs. apply (f_equal length) in Hs.
    rewrite length_app, !length_fmap in Hs. rewrite Hs. f_equal.
    pose proof (pair_objects_sources _ _ Hlen) as Hp. unfold sources in Hp.
    apply (f_equal length) in Hp. rewrite !length_fmap in Hp.
    rewrite Hp. apply zip_length.
Qed.

End Shapes.

Lemma process_batch_pairs_up_to_the_shorter_witness :
  let st := {| new_view := []; calls := @nil (Call Z) |} in
  let after := process_batch Fixture.stub ["a"; "b"]%string [1; 2] ["v_0:tf_1"]%string st in
  after.2 = Ok tt
  ∧ sources (new_view after.1) = ["v_0:tf_1"]%string
  ∧ texts (new_view after.1) = ["a caption"]%string
  ∧ length (alignments (new_view after.1)) = 1%nat.
Proof.
  intros st after.
  exact (process_batch_pairs_up_to_the_shorter Fixture.stub ["a"; "b"]%string [1; 2]
           ["v_0:tf_1"]%string [" a caption "; " a caption "]%string st eq_refl).
Defined.

(** ** Requests over time frames, whatever the batch size and the model *)

Section TimeframeRequests.

Context {Image : Type} (sdk : Sdk Image).

Lemma timeframe_step_non_skipped (mmif : Mmif) (parameters : Parameters)
    (timeframe : Annotation) (b : Batch) (st : St) :
  non_skipped parameters timeframe = true →
  timeframe_step sdk mmif parameters timeframe b st
  = flush_if_full sdk (batch_size parameters)
      (push (rendered_prompt sdk mmif parameters timeframe)
            (extract_mid_frame sdk mmif timeframe) (long_id timeframe) b) st.
Proof.
  unfold non_skipped, timeframe_step, get_prompt, rendered_prompt.
  destruct (String.eqb _ SKIP); [discriminate|]. intros _.
  unfold substitute_context. rewrite replace_wrapped_not_empty.
  unfold select_image. destruct (has_representatives timeframe); reflexivity.
Qed.

(** A rule for the loop over time frames: what every iteration keeps, the
    loop keeps. *)
Lemma timeframe_loop_rule (Inv : St → Batch → Prop) (Post : St → Prop)
    (mmif : Mmif) (parameters : Parameters) (timeframes : list Annotation) :
  (∀ tf b st st' r,
     tf ∈ timeframes → Inv st b →
     timeframe_step sdk mmif parameters tf b st = (st', r) →
     match r with Ok b' => Inv st' b' | Raise _ => Post st' end) →
  ∀ b st st' r,
    Inv st b →
    timeframe_loop sdk mmif parameters timeframes b st = (st', r) →
    match r with Ok b' => Inv st' b' | Raise _ => Post st' end.
Proof.
  induction timeframes as [|tf rest IH]; intros Hstep b st st' r Hinv.
  - intros [= <- <-]. exact Hinv.
  - simpl. unfold bind.
    destruct (timeframe_step sdk mmif parameters tf b st) as [st1 r1] eqn:E1.
    pose proof (Hstep tf b st st1 r1 (list_elem_of_here _ _) Hinv E1) as H1.
    destruct r1 as [b1|e].
    + apply IH; [|exact H1]. intros tf' b' s s' r' Hin. apply Hstep. now constructor.
    + intros [= <- <-]. exact H1.
Qed.

Lemma call_of_push (mmif : Mmif) (parameters : Parameters) (l : list Annotation)
    (tf : Annotation) (b : Batch) :
  batch_of sdk mmif parameters l b →
  let b1 := push (rendered_prompt sdk mmif parameters tf)
                 (extract_mid_frame sdk mmif tf) (long_id tf) b in
  batch_of sdk mmif parameters (l ++ [tf]) b1
  ∧ {| call_prompts := b_prompts b1; call_images := b_images b1;
       call_annotations := b_annotations b1 |}
    = call_of sdk mmif parameters (l ++ [tf]).
Proof.
  intros (Hp & Hi & Ha). unfold batch_of, call_of. simpl.
  rewrite Hp, Hi, Ha, !fmap_app. auto.
Qed.

(** In a request over time frames every call hands over input time
    frames, and the view holds nothing but stripped text documents and
    alignments. *)
Lemma annotate_timeframes_shape (mmif : Mmif) (parameters : Parameters)
    (timeframes : list Annotation) (st : St) :
  let Good st := Forall (hands_over sdk mmif parameters timeframes) (calls st)
                 ∧ Forall stripped_text (new_view st)
                 ∧ Forall caption_object (new_view st) in
  Good st → Good (annotate_timeframes sdk mmif parameters timeframes st).1.
Proof.
  intros Good Hgood.
  set (Inv := λ (s : St) (b : @Batch Image),
         Good s ∧ ∃ l, l ⊆ timeframes ∧ batch_of sdk mmif parameters l b).
  assert (Hflush : ∀ l b s s' (r : result unit),
            l ≠ [] → l ⊆ timeframes → batch_of sdk mmif parameters l b → Good s →
            process_batch sdk (b_prompts b) (b_images b) (b_annotations b) s = (s', r) →
            Good s').
  { intros l b s s' r Hne Hsub (Hp & Hi & Ha) (Hc & Hs & Hk) E.
    pose proof (process_batch_shape sdk (b_prompts b) (b_images b) (b_annotations b) s) as H.
    simpl in H.
    assert (Hcall : hands_over sdk mmif parameters timeframes
                      {| call_prompts := b_prompts b; call_images := b_images b;
                         call_annotations := b_annotations b |}).
    { exists l. unfold call_of. rewrite Hp, Hi, Ha. auto. }
    destruct (generate sdk (b_prompts b) (b_images b)) as [captions|].
    - destruct H as (ids & _ & H). rewrite H in E. injection E as <- <-.
      unfold Good. simpl. repeat split.
      + apply Forall_app. split; [exact Hc | apply Forall_singleton, Hcall].
      + apply Forall_app. split; [exact Hs | apply pair_objects_stripped].
      + apply Forall_app. split; [exact Hk | apply pair_objects_captions].
    - rewrite H in E. injection E as <- <-.
      unfold Good. simpl. repeat split; auto.
      apply Forall_app. split; [exact Hc | apply Forall_singleton, Hcall]. }
  unfold annotate_timeframes, bind.
  destruct (timeframe_loop sdk mmif parameters timeframes empty_batch st) as [st1 r1] eqn:E1.
  pose proof (timeframe_loop_rule Inv Good mmif parameters timeframes) as Hrule.
  assert (H1 : match r1 with Ok b' => Inv st1 b' | Raise _ => Good st1 end).
  { apply (Hrule) with (b := empty_batch) (st := st); [| |exact E1].
    - intros tf b s s' r Hin (Hg & l & Hsub & Hb) E.
      destruct (non_skipped parameters tf) eqn:Hns.
      + rewrite timeframe_step_non_skipped in E by exact Hns.
        destruct (call_of_push mmif parameters l tf b Hb) as [Hb1 _].
        assert (Hsub1 : l ++ [tf] ⊆ timeframes).
        { intros x Hx. apply elem_of_app in Hx as [Hx|Hx]; [auto|].
          apply list_elem_of_singleton in Hx. subst. exact Hin. }
        unfold flush_if_full in E.
        destruct (Z.of_nat _ =? batch_size parameters).
        * unfold bind in E.
          match type of E with context [process_batch sdk ?ps ?is_ ?ss s] =>
            destruct (process_batch sdk ps is_ ss s) as [s1 r1'] eqn:Eb end.
          assert (Hg1 : Good s1).
          { eapply (Hflush (l ++ [tf])); [| exact Hsub1 | exact Hb1 | exact Hg | exact Eb].
            destruct l; discriminate. }
          destruct r1' as [[]|e]; injection E as <- <-; [|exact Hg1].
          split; [exact Hg1|]. exists []. repeat split. intros x Hx. inversion Hx.
        * injection E as <- <-. split; [exact Hg|]. eauto.
      + rewrite skipped_timeframe_raises in E by exact Hns. injection E as <- <-. exact Hg.
    - split; [exact Hgood|]. exists []. repeat split. intros x Hx. inversion Hx. }
  destruct r1 as [b|e]; [|exact H1].
  destruct H1 as (Hg & l & Hsub & Hb).
  destruct (b_prompts b) as [|p ps] eqn:Ep; [exact Hg|].
  simpl flush_rest. rewrite <- Ep.
  destruct (process_batch sdk (b_prompts b) (b_images b) (b_annotations b) st1)
    as [s' r] eqn:Eb.
  eapply (Hflush l); [| exact Hsub | exact Hb | exact Hg | exact Eb].
  intros ->. destruct Hb as (Hp & _). rewrite Ep in Hp. discriminate.
Qed.

End TimeframeRequests.

(** ** The sampling block, whatever the batch size and the model *)

Section SampledRequests.

Context {Image : Type} (sdk : Sdk Image).

(** A rule for the sampling loop: what making a time point keeps and what
    a flush of a non-empty batch keeps, the loop keeps. *)
Lemma sample_loop_rule (Inv : St → SampleVars → Prop) (Post : St → Prop)
    (default_prompt : string) (size : Z) :
  (∀ st vars image frame_number,
     Inv st vars →
     Inv {| new_view := new_view st ++ [TimePoint (fresh sdk TimePointT st) frame_number];
            calls := calls st |}
         (append_annotation (fresh sdk TimePointT st)
            (append_pair default_prompt image vars))) →
  (∀ st vars st' (r : result unit),
     Inv st vars → s_prompts vars ≠ [] → Z.of_nat (length (s_prompts vars)) = size →
     process_batch sdk (s_prompts vars) (images_value vars) (s_annotations vars) st = (st', r) →
     match r with Ok _ => Inv st' (rebind vars) | Raise _ => Post st' end) →
  ∀ frame_numbers pos vars st st' r,
    Inv st vars →
    sample_loop sdk default_prompt size frame_numbers pos vars st = (st', r) →
    match r with Ok vars' => Inv st' vars' | Raise _ => Post st' end.
Proof.
  intros Hadd Hflush.
  induction frame_numbers as [|frame_number rest IH]; intros pos vars st st' r Hinv.
  - intros [= <- <-]. exact Hinv.
  - simpl sample_loop.
    destruct (extracted vars !! pos) as [image|]; [|intros [= <- <-]; exact Hinv].
    unfold bind at 1. unfold new_timepoint at 1.
    pose proof (Hadd st vars image frame_number Hinv) as Hinv2.
    set (st1 := {| new_view := new_view st ++ [TimePoint (fresh sdk TimePointT st) frame_number];
                   calls := calls st |}) in *.
    set (vars2 := append_annotation (fresh sdk TimePointT st)
                    (append_pair default_prompt image vars)) in *.
    assert (Hne : s_prompts vars2 ≠ []).
    { unfold vars2. simpl.
      destruct (append_pair_prompts default_prompt image vars) as [-> _].
      intros H. apply app_eq_nil in H as [_ H]. discriminate. }
    unfold bind at 1.
    change (s_prompts (append_pair default_prompt image vars)) with (s_prompts vars2).
    change (s_annotations (append_pair default_prompt image vars)
              ++ [fresh sdk TimePointT st]) with (s_annotations vars2).
    destruct (Z.eqb_spec (Z.of_nat (length (s_prompts vars2))) size) as [Hfull|_].
    + unfold bind at 1.
      destruct (process_batch sdk (s_prompts vars2) (images_value vars2)
                  (s_annotations vars2) st1) as [st2 r2] eqn:E2.
      pose proof (Hflush st1 vars2 st2 r2 Hinv2 Hne Hfull E2) as H2.
      destruct r2 as [[]|e].
      * simpl. apply IH. exact H2.
      * intros [= <- <-]. exact H2.
    + simpl. apply IH. exact Hinv2.
Qed.

(** In the sampling block every call carries the default prompt as many
    times as it has sources, at least once, and the text documents of the
    view are stripped. *)
Lemma annotate_sampled_shape (video_doc : Document) (parameters : Parameters) (st : St) :
  let Good st := Forall (same_prompt_call (defaultPrompt parameters)) (calls st)
                 ∧ Forall stripped_text (new_view st) in
  Good st → Good (annotate_sampled sdk video_doc parameters st).1.
Proof.
  intros Good Hgood. set (dp := defaultPrompt parameters) in *.
  set (Inv := λ (s : St) (vars : @SampleVars Image),
         Good s ∧ s_prompts vars = replicate (length (s_annotations vars)) dp).
  assert (Hflush : ∀ s vars s' (r : result unit),
            Inv s vars → s_prompts vars ≠ [] →
            process_batch sdk (s_prompts vars) (images_value vars) (s_annotations vars) s
            = (s', r) → Good s').
  { intros s vars s' r ((Hc & Hs) & Hp) Hne E.
    pose proof (process_batch_shape sdk (s_prompts vars) (images_value vars)
                  (s_annotations vars) s) as H. simpl in H.
    assert (Hcall : same_prompt_call dp
                      {| call_prompts := s_prompts vars; call_images := images_value vars;
                         call_annotations := s_annotations vars |}).
    { split; [|exact Hp]. simpl. intros Ha. rewrite Ha in Hp. simpl in Hp. auto. }
    destruct (generate sdk (s_prompts vars) (images_value vars)) as [captions|].
    - destruct H as (ids & _ & H). rewrite H in E. injection E as <- <-.
      split; simpl.
      + apply Forall_app. split; [exact Hc | apply Forall_singleton, Hcall].
      + apply Forall_app. split; [exact Hs | apply pair_objects_stripped].
    - rewrite H in E. injection E as <- <-. split; simpl; [|exact Hs].
      apply Forall_app. split; [exact Hc | apply Forall_singleton, Hcall]. }
  unfold annotate_sampled.
  destruct (py_range 0 (get_frame_count sdk video_doc) (frame_interval parameters))
    as [frame_numbers|e]; [|exact Hgood].
  unfold bind.
  match goal with |- context [sample_loop sdk ?d ?bs ?fns ?pos ?vars st] =>
    destruct (sample_loop sdk d bs fns pos vars st) as [st1 r1] eqn:E1;
    pose proof (sample_loop_rule Inv Good d bs) as Hrule;
    assert (H1 : match r1 with Ok vars' => Inv st1 vars' | Raise _ => Good st1 end)
  end.
  { eapply Hrule; [| | |exact E1].
    - intros s vars image fn ((Hc & Hs) & Hp). split; [split|]; simpl.
      + exact Hc.
      + apply Forall_app. split; [exact Hs | apply Forall_singleton; exact I].
      + fold dp. destruct (append_pair_prompts dp image vars) as [-> ->].
        rewrite Hp, length_app. simpl.
        rewrite Nat.add_1_r. symmetry. apply replicate_S_end.
    - intros s vars s' r Hinv Hne _ E.
      pose proof (Hflush s vars s' r Hinv Hne E) as Hg.
      destruct r as [[]|e]; [|exact Hg]. split; [exact Hg | reflexivity].
    - split; [exact Hgood | reflexivity]. }
  destruct r1 as [vars|e]; [|exact H1].
  destruct (s_prompts vars) as [|p ps] eqn:Ep; [exact (proj1 H1)|].
  simpl flush_rest. rewrite <- Ep.
  destruct (process_batch sdk (s_prompts vars) (images_value vars) (s_annotations vars) st1)
    as [s' r] eqn:Eb.
  eapply Hflush; [exact H1 | | exact Eb]. rewrite Ep. discriminate.
Qed.

End SampledRequests.

(** ** Whole requests *)

Section WholeRequests.

Context {Image : Type} (sdk : Sdk Image).

(** The two ways of a request: it ends before the new view is made, or
    it runs the loop over the time frames the input view yields. *)
Lemma annotate_cases (mmif : Mmif) (parameters : Parameters) :
  (∃ e, find_input sdk mmif = Raise e ∧ _annotate sdk mmif parameters = aborted e)
  ∨ (∃ video_doc input_view,
       find_input sdk mmif = Ok (video_doc, input_view)
       ∧ _annotate sdk mmif parameters
         = outcome_of (annotate_timeframes sdk mmif parameters
                         (input_timeframes sdk mmif) start)).
Proof.
  unfold _annotate, input_timeframes.
  destruct (find_input sdk mmif) as [[video_doc input_view]|e]; [|left; eauto].
  right. exists video_doc, input_view. split; [reflexivity|].
  cbn [py_bool]. fold (@start Image).
  destruct (annotate_timeframes sdk mmif parameters
              (py_list (get_annotations input_view TimeFrameT)) start).
  reflexivity.
Qed.

(** The view of every request holds stripped text documents only. *)
Lemma annotate_view_stripped (mmif : Mmif) (parameters : Parameters)
    (view : list OutAnnotation) :
  out_view (_annotate sdk mmif parameters) = Some view → Forall stripped_text view.
Proof.
  destruct (annotate_cases mmif parameters)
    as [(e & _ & ->)|(video_doc & input_view & _ & ->)]; simpl.
  - discriminate.
  - intros [= <-].
    apply (annotate_timeframes_shape sdk mmif parameters (input_timeframes sdk mmif) start).
    repeat split; constructor.
Qed.

(** X6. Every text document of the new view holds a caption without
    white space at its beginning or at its end: stripping it again changes
    nothing. *)
Theorem text_documents_are_stripped (mmif : Mmif) (parameters : Parameters)
    (view : list OutAnnotation) (id text : string) :
  out_view (_annotate sdk mmif parameters) = Some view →
  TextDocument id text ∈ view →
  PyStr.strip text = text
  ∧ (∀ c r, text = String c r → PyStr.is_space c = false)
  ∧ (∀ r c, text = r +:+ String c EmptyString → PyStr.is_space c = false).
Proof.
  intros Hview Hin.
  pose proof (annotate_view_stripped mmif parameters view Hview) as Hall.
  rewrite Forall_forall in Hall. specialize (Hall _ Hin). simpl in Hall.
  split; [exact Hall|]. split.
  - intros c r E. apply (strip_head text c r). congruence.
  - intros r c E. apply (rstrip_last (PyStr.lstrip text) r c).
    unfold PyStr.strip in Hall. congruence.
Qed.

(** X7. No call of the model is empty, and each one carries as many
    sources as prompts, whatever the batch size and whatever the model
    answers. *)
Theorem calls_are_never_empty (mmif : Mmif) (parameters : Parameters) (c : Call Image) :
  c ∈ model_calls (_annotate sdk mmif parameters) →
  call_prompts c ≠ [] ∧ length (call_prompts c) = length (call_annotations c).
Proof.
  destruct (annotate_cases mmif parameters)
    as [(e & _ & ->)|(video_doc & input_view & _ & ->)]; simpl.
  - intros H. inversion H.
  - intros Hin.
    destruct (annotate_timeframes_shape sdk mmif parameters (input_timeframes sdk mmif) start)
      as [Hc _]; [repeat split; constructor|].
    rewrite Forall_forall in Hc. destruct (Hc _ Hin) as (l & Hne & _ & ->).
    unfold call_of. simpl. rewrite !length_fmap. split; [|reflexivity].
    destruct l; [contradiction | discriminate].
Qed.

(** X8. In a request over time frames, what a call hands to the model at
    one position comes from one input time frame: the prompt rendered for
    it, its mid frame and its identifier. *)
Theorem calls_hand_over_time_frames (mmif : Mmif) (parameters : Parameters)
    (c : Call Image) :
  input_timeframes sdk mmif ≠ [] →
  c ∈ model_calls (_annotate sdk mmif parameters) →
  ∃ l, l ≠ [] ∧ l ⊆ input_timeframes sdk mmif
       ∧ call_prompts c = rendered_prompt sdk mmif parameters <$> l
       ∧ call_images c = extract_mid_frame sdk mmif <$> l
       ∧ call_annotations c = long_id <$> l.
Proof.
  intros Htf.
  destruct (annotate_cases mmif parameters)
    as [(e & _ & ->)|(video_doc & input_view & _ & ->)]; simpl.
  - intros H. inversion H.
  - intros Hin.
    destruct (annotate_timeframes_shape sdk mmif parameters (input_timeframes sdk mmif) start)
      as [Hc _]; [repeat split; constructor|].
    rewrite Forall_forall in Hc. destruct (Hc _ Hin) as (l & Hne & Hsub & ->).
    exists l. auto.
Qed.

(** X9. In the sampling block of lines 113-132, run on its own (no
    request reaches it through line 84), every prompt handed to the model
    is the default prompt as it stands: without the instruction marks, and
    also when it is the skip sentinel. *)
Theorem sampling_prompts_are_the_default_prompt (video_doc : Document)
    (parameters : Parameters) (st' : St) (r : result unit)
    (c : Call Image) (prompt : string) :
  annotate_sampled sdk video_doc parameters start = (st', r) →
  c ∈ calls st' →
  prompt ∈ call_prompts c →
  prompt = defaultPrompt parameters.
Proof.
  intros Hrun Hin Hp.
  destruct (annotate_sampled_shape sdk video_doc parameters start) as [Hc _];
    [split; constructor|].
  rewrite Hrun in Hc. simpl in Hc.
  rewrite Forall_forall in Hc. destruct (Hc _ Hin) as [_ Heq].
  rewrite Heq in Hp. apply elem_of_replicate in Hp as [-> _]. reflexivity.
Qed.

(** X10. A request over time frames puts into the new view only objects
    of the types that [metadata.py] declares as output: text documents and
    alignments. *)
Theorem timeframe_outputs_are_declared (mmif : Mmif) (parameters : Parameters)
    (view : list OutAnnotation) (a : OutAnnotation) :
  input_timeframes sdk mmif ≠ [] →
  out_view (_annotate sdk mmif parameters) = Some view →
  a ∈ view →
  io_type_of a ∈ app_outputs appmetadata.
Proof.
  intros Htf.
  destruct (annotate_cases mmif parameters)
    as [(e & _ & ->)|(video_doc & input_view & _ & ->)]; simpl.
  - discriminate.
  - intros [= <-] Hin.
    destruct (annotate_timeframes_shape sdk mmif parameters (input_timeframes sdk mmif) start)
      as (_ & _ & Hk); [repeat split; constructor|].
    rewrite Forall_forall in Hk. specialize (Hk _ Hin).
    destruct a; simpl in *; [| |contradiction]; set_solver.
Qed.

End WholeRequests.

(** ** Edge cases of the batch size and of the model *)

Section EdgeCases.

Context {Image : Type} (sdk : Sdk Image).

Lemma process_batch_one_call (prompts : list string) (images : list Image)
    (anns : list string) (st : St) :
  length (calls (process_batch sdk prompts images anns st).1) = S (length (calls st)).
Proof.
  pose proof (process_batch_shape sdk prompts images anns st) as H. simpl in H.
  destruct (generate sdk prompts images) as [captions|].
  - destruct H as (ids & _ & ->). simpl. rewrite length_app. simpl. lia.
  - rewrite H. simpl. rewrite length_app. simpl. lia.
Qed.

Lemma flush_rest_one_call (prompts : list string) (images : list Image)
    (anns : list string) (st : St) :
  (length (calls (flush_rest sdk prompts images anns st).1) ≤ S (length (calls st)))%nat.
Proof.
  destruct prompts; simpl; [lia|]. rewrite process_batch_one_call. lia.
Qed.

(** With a batch size below one the loop over time frames never flushes. *)
Lemma timeframe_loop_never_flushes (mmif : Mmif) (parameters : Parameters)
    (timeframes : list Annotation) (b : Batch) (st : St) :
  batch_size parameters ≤ 0 →
  calls (timeframe_loop sdk mmif parameters timeframes b st).1 = calls st.
Proof.
  intros Hsize.
  destruct (timeframe_loop sdk mmif parameters timeframes b st) as [st' r] eqn:E.
  pose proof (timeframe_loop_rule sdk (λ s _, calls s = calls st) (λ s, calls s = calls st)
                mmif parameters timeframes) as Hrule.
  assert (H : match r with Ok _ => calls st' = calls st | Raise _ => calls st' = calls st end).
  { eapply Hrule; [|reflexivity|exact E].
    intros tf b0 s s' r0 _ Hs Es.
    destruct (non_skipped parameters tf) eqn:Hns.
    - rewrite timeframe_step_non_skipped in Es by exact Hns.
      unfold flush_if_full in Es.
      match type of Es with context [Z.of_nat ?n =? _] =>
        destruct (Z.eqb_spec (Z.of_nat n) (batch_size parameters)) as [Hfull|_] end.
      + exfalso. simpl in Hfull. rewrite length_app in Hfull. simpl in Hfull. lia.
      + injection Es as <- <-. exact Hs.
    - rewrite skipped_timeframe_raises in Es by exact Hns. injection Es as <- <-. exact Hs. }
  simpl. destruct r; exact H.
Qed.

Lemma sample_loop_never_flushes (default_prompt : string) (size : Z)
    (frame_numbers : list Z) (pos : nat) (vars : SampleVars) (st : St) :
  size ≤ 0 →
  calls (sample_loop sdk default_prompt size frame_numbers pos vars st).1 = calls st.
Proof.
  intros Hsize.
  destruct (sample_loop sdk default_prompt size frame_numbers pos vars st) as [st' r] eqn:E.
  pose proof (sample_loop_rule sdk (λ s _, calls s = calls st) (λ s, calls s = calls st)
                default_prompt size) as Hrule.
  assert (H : match r with Ok _ => calls st' = calls st | Raise _ => calls st' = calls st end).
  { eapply Hrule; [| |reflexivity|exact E].
    - intros s vars0 image fn Hs. exact Hs.
    - intros s vars0 s' r0 _ Hne Hfull _. exfalso.
      destruct (s_prompts vars0); [contradiction|]. simpl in Hfull. lia. }
  simpl. destruct r; exact H.
Qed.

(** X13. With a batch size of zero or less no batch is ever full: the
    model is called once at most, after the loop. *)
Theorem batch_size_below_one_makes_one_call (mmif : Mmif) (parameters : Parameters) :
  batch_size parameters ≤ 0 →
  (length (model_calls (_annotate sdk mmif parameters)) ≤ 1)%nat.
Proof.
  intros Hsize.
  destruct (annotate_cases sdk mmif parameters)
    as [(e & _ & ->)|(video_doc & input_view & _ & ->)]; simpl.
  - lia.
  - unfold annotate_timeframes, bind.
    pose proof (timeframe_loop_never_flushes mmif parameters (input_timeframes sdk mmif)
                  empty_batch start Hsize) as Hc.
    destruct (timeframe_loop sdk mmif parameters (input_timeframes sdk mmif) empty_batch start)
      as [st1 [b|e]]; simpl in Hc.
    + pose proof (flush_rest_one_call (b_prompts b) (b_images b) (b_annotations b) st1) as Hf.
      rewrite Hc in Hf. exact Hf.
    + simpl. rewrite Hc. simpl. lia.
Qed.

End EdgeCases.

Section FailingModel.

Context {Image : Type} (sdk : Sdk Image).
Hypothesis Hfails : ∀ prompts images, generate sdk prompts images = None.

Lemma process_batch_fails (prompts : list string) (images : list Image)
    (anns : list string) (st : St) :
  process_batch sdk prompts images anns st
  = ({| new_view := new_view st;
        calls := calls st ++ [ {| call_prompts := prompts; call_images := images;
                                  call_annotations := anns |} ] |}, Raise ModelError).
Proof.
  pose proof (process_batch_shape sdk prompts images anns st) as H. simpl in H.
  rewrite Hfails in H. exact H.
Qed.

(** X14. When the model fails at every call, a request calls it once at
    most, completes only if it had nothing to hand over, and leaves no text
    document and no alignment in the view. *)
Theorem failing_model_leaves_no_caption (mmif : Mmif) (parameters : Parameters) :
  let out := _annotate sdk mmif parameters in
  (length (model_calls out) ≤ 1)%nat
  ∧ (status out = Ok tt → model_calls out = [])
  ∧ (∀ view, out_view out = Some view → alignments view = [] ∧ text_documents view = []).
Proof.
  set (Quiet := λ s : @St Image,
         calls s = [] ∧ alignments (new_view s) = [] ∧ text_documents (new_view s) = []).
  set (Done := λ s : @St Image,
         (length (calls s) ≤ 1)%nat
         ∧ alignments (new_view s) = [] ∧ text_documents (new_view s) = []).
  assert (Hflush : ∀ prompts images anns s s' (r : result unit),
            Quiet s → process_batch sdk prompts images anns s = (s', r) →
            Done s' ∧ r = Raise ModelError).
  { intros prompts images anns s s' r (Hc & Ha & Ht) E.
    rewrite process_batch_fails in E. injection E as <- <-.
    split; [|reflexivity]. unfold Done. simpl. rewrite Hc. auto. }
  assert (Hrest : ∀ prompts images anns s,
            Quiet s →
            let run := flush_rest sdk prompts images anns s in
            Done run.1 ∧ (run.2 = Ok tt → calls run.1 = [])).
  { intros prompts images anns s Hq. destruct prompts as [|p ps]; simpl.
    - destruct Hq as (Hc & Ha & Ht). unfold Done. rewrite Hc. simpl. auto.
    - destruct (process_batch sdk (p :: ps) images anns s) as [s' r] eqn:E.
      destruct (Hflush _ _ _ _ _ _ Hq E) as [Hd ->]. split; [exact Hd | discriminate]. }
  assert (Hstart : Quiet start) by (repeat split).
  assert (Hfinal : ∀ run : St * result unit,
            Done run.1 ∧ (run.2 = Ok tt → calls run.1 = []) →
            let out := outcome_of run in
            (length (model_calls out) ≤ 1)%nat
            ∧ (status out = Ok tt → model_calls out = [])
            ∧ (∀ view, out_view out = Some view →
                 alignments view = [] ∧ text_documents view = [])).
  { intros run ((Hn & Ha & Ht) & Hok). simpl. repeat split; auto.
    - injection H as <-. exact Ha.
    - injection H as <-. exact Ht. }
  destruct (annotate_cases sdk mmif parameters)
    as [(e & _ & ->)|(video_doc & input_view & _ & ->)].
  - simpl. repeat split; try discriminate. lia.
  - apply Hfinal. unfold annotate_timeframes, bind.
    destruct (timeframe_loop sdk mmif parameters (input_timeframes sdk mmif) empty_batch start)
      as [st1 r1] eqn:E1.
    pose proof (timeframe_loop_rule sdk (λ s _, Quiet s) Done mmif parameters
                  (input_timeframes sdk mmif)) as Hrule.
    assert (H1 : match r1 with Ok _ => Quiet st1 | Raise _ => Done st1 end).
    { eapply Hrule; [|exact Hstart|exact E1].
      intros tf b s s' r _ Hq Es.
      destruct (non_skipped parameters tf) eqn:Hns.
      - rewrite timeframe_step_non_skipped in Es by exact Hns.
        unfold flush_if_full in Es. destruct (_ =? _).
        + unfold bind in Es.
          match type of Es with context [process_batch sdk ?ps ?is_ ?ss s] =>
            destruct (process_batch sdk ps is_ ss s) as [s1 rb] eqn:Eb end.
          destruct (Hflush _ _ _ _ _ _ Hq Eb) as [Hd ->]. injection Es as <- <-. exact Hd.
        + injection Es as <- <-. exact Hq.
      - rewrite skipped_timeframe_raises in Es by exact Hns. injection Es as <- <-.
        destruct Hq as (Hc & Ha & Ht). unfold Done. rewrite Hc. simpl. auto. }
    destruct r1 as [b|e]; [apply Hrest; exact H1|].
    simpl. split; [exact H1 | discriminate].
Qed.

End FailingModel.

(** ** The sampled frames *)

Section SampledFrames.

Context {Image : Type} (sdk : Sdk Image).

(** [range(0, stop, step)] for a positive step: the frame number at
    position [i] is [i * step], as long as that is below [stop]. *)
Lemma py_range_positive (stop step : Z) :
  0 < step →
  ∃ l, py_range 0 stop step = Ok l
       ∧ ∀ (i : nat) (x : Z), l !! i = Some x ↔ x = Z.of_nat i * step ∧ x < stop.
Proof.
  intros Hstep. unfold py_range.
  destruct (Z.eqb_spec step 0) as [->|_]; [lia|].
  destruct (Z.ltb_spec 0 step) as [_|]; [|lia].
  set (q := (stop - 0 + step - 1) / step).
  assert (Hq1 : step * q ≤ stop + step - 1).
  { unfold q. replace (stop - 0 + step - 1) with (stop + step - 1) by lia.
    apply Z.mul_div_le. lia. }
  assert (Hq2 : stop + step - 1 < step * q + step).
  { unfold q. replace (stop - 0 + step - 1) with (stop + step - 1) by lia.
    pose proof (Z.mul_succ_div_gt (stop + step - 1) step Hstep). lia. }
  eexists. split; [reflexivity|].
  intros i x. rewrite list_lookup_fmap. split.
  - destruct (seq 0 (Z.to_nat q) !! i) as [j|] eqn:E; [|discriminate].
    apply lookup_seq in E as [-> Hi]. simpl. intros [= <-].
    split; [lia|]. assert (Z.of_nat i < q) by lia. nia.
  - intros [-> Hlt]. assert (Hi : Z.of_nat i < q) by nia.
    rewrite (lookup_seq_lt 0 (Z.to_nat q) i) by lia. simpl. f_equal; lia.
Qed.

Lemma time_points_pair_objects (pairs ids : list (string * string)) :
  time_points (pair_objects pairs ids) = [].
Proof.
  revert ids. induction pairs as [|p pairs IH]; intros [|i ids]; try reflexivity.
  unfold pair_objects in *. simpl. apply IH.
Qed.

Lemma process_batch_time_points (prompts : list string) (images : list Image)
    (anns : list string) (st : St) :
  time_points (new_view (process_batch sdk prompts images anns st).1)
  = time_points (new_view st).
Proof.
  pose proof (process_batch_shape sdk prompts images anns st) as H. simpl in H.
  destruct (generate sdk prompts images) as [captions|].
  - destruct H as (ids & _ & ->). simpl. unfold time_points at 1.
    rewrite omap_app. fold (time_points (new_view st)).
    fold (time_points (pair_objects (zip captions anns) ids)).
    rewrite time_points_pair_objects. apply app_nil_r.
  - rewrite H. reflexivity.
Qed.

Lemma append_pair_extracted (prompt : string) (image : Image) (vars : @SampleVars Image) :
  (length (extracted vars) ≤ length (extracted (append_pair prompt image vars)))%nat.
Proof.
  unfold append_pair. destruct (s_images vars); simpl; [|lia].
  rewrite length_app. lia.
Qed.

(** The sampling loop makes time points for the frame numbers in their
    order, from the first on; for all of them when it is given an image for
    each and is not interrupted. *)
Lemma sample_loop_frames (default_prompt : string) (size : Z) (frame_numbers : list Z) :
  ∀ (pos : nat) (vars : SampleVars) (st st' : St) (r : result SampleVars),
    sample_loop sdk default_prompt size frame_numbers pos vars st = (st', r) →
    (∃ k, time_point_frames (new_view st')
          = time_point_frames (new_view st) ++ take k frame_numbers)
    ∧ ((pos + length frame_numbers ≤ length (extracted vars))%nat →
       ∀ vars', r = Ok vars' →
       time_point_frames (new_view st') = time_point_frames (new_view st) ++ frame_numbers).
Proof.
  induction frame_numbers as [|frame_number rest IH]; intros pos vars st st' r.
  - intros [= <- <-]. split; [exists 0%nat|]; rewrite ?app_nil_r; auto.
  - simpl sample_loop.
    destruct (extracted vars !! pos) as [image|] eqn:Elook.
    2:{ intros [= <- <-]. split; [exists 0%nat; rewrite app_nil_r; reflexivity|].
        intros Hlen. apply lookup_ge_None in Elook. simpl in Hlen. lia. }
    unfold bind at 1. unfold new_timepoint at 1.
    set (st1 := {| new_view := new_view st ++ [TimePoint (fresh sdk TimePointT st) frame_number];
                   calls := calls st |}).
    set (vars2 := append_annotation (fresh sdk TimePointT st)
                    (append_pair default_prompt image vars)).
    assert (Hf1 : time_point_frames (new_view st1)
                  = time_point_frames (new_view st) ++ [frame_number]).
    { unfold st1, time_point_frames, time_points. simpl.
      rewrite omap_app, fmap_app. reflexivity. }
    assert (Hext : (length (extracted vars) ≤ length (extracted vars2))%nat).
    { unfold vars2. simpl. apply append_pair_extracted. }
    unfold bind at 1.
    change (s_prompts (append_pair default_prompt image vars)) with (s_prompts vars2).
    change (s_annotations (append_pair default_prompt image vars)
              ++ [fresh sdk TimePointT st]) with (s_annotations vars2).
    assert (Hnext : ∀ (v : SampleVars) (s : St),
              (length (extracted vars) ≤ length (extracted v))%nat →
              time_point_frames (new_view s) = time_point_frames (new_view st1) →
              sample_loop sdk default_prompt size rest (S pos) v s = (st', r) →
              (∃ k, time_point_frames (new_view st')
                    = time_point_frames (new_view st) ++ take k (frame_number :: rest))
              ∧ ((pos + length (frame_number :: rest) ≤ length (extracted vars))%nat →
                 ∀ vars', r = Ok vars' →
                 time_point_frames (new_view st')
                 = time_point_frames (new_view st) ++ frame_number :: rest)).
    { intros v s Hv Hs E. destruct (IH (S pos) v s st' r E) as [(k & Hk) Hall]. split.
      - exists (S k). rewrite Hk, Hs, Hf1, <- app_assoc. reflexivity.
      - intros Hlen vars' Hok. rewrite (Hall ltac:(simpl in Hlen; lia) vars' Hok).
        rewrite Hs, Hf1, <- app_assoc. reflexivity. }
    destruct (Z.of_nat (length (s_prompts vars2)) =? size).
    + unfold bind at 1.
      pose proof (process_batch_time_points (s_prompts vars2) (images_value vars2)
                    (s_annotations vars2) st1) as Htp.
      destruct (process_batch sdk (s_prompts vars2) (images_value vars2)
                  (s_annotations vars2) st1) as [st2 [[]|e]]; cbn [fst] in Htp.
      * unfold ret. cbv beta iota.
        apply Hnext; [exact Hext|]. unfold time_point_frames. rewrite Htp. reflexivity.
      * intros [= <- <-]. split; [|discriminate]. exists 1%nat.
        unfold time_point_frames at 1. rewrite Htp. exact Hf1.
    + unfold ret. cbv beta iota. apply Hnext; [exact Hext | reflexivity].
Qed.

Lemma flush_rest_time_points (prompts : list string) (images : list Image)
    (anns : list string) (st : St) :
  time_points (new_view (flush_rest sdk prompts images anns st).1)
  = time_points (new_view st).
Proof. destruct prompts; [reflexivity | apply process_batch_time_points]. Qed.

End SampledFrames.

Section SamplingRequests.

Context {Image : Type} (sdk : Sdk Image).

Lemma annotate_sampled_frames (video_doc : Document) (parameters : Parameters)
    (frame_numbers : list Z) :
  py_range 0 (get_frame_count sdk video_doc) (frame_interval parameters) = Ok frame_numbers →
  let run := annotate_sampled sdk video_doc parameters start in
  time_point_frames (new_view run.1) `prefix_of` frame_numbers
  ∧ ((length frame_numbers
      ≤ length (extract_frames_as_images sdk video_doc frame_numbers))%nat →
     run.2 = Ok tt → time_point_frames (new_view run.1) = frame_numbers).
Proof.
  intros Hrange. unfold annotate_sampled. rewrite Hrange. unfold bind.
  match goal with |- context [sample_loop sdk ?d ?bs ?fns ?pos ?vars start] =>
    destruct (sample_loop sdk d bs fns pos vars start) as [st1 r1] eqn:E1;
    destruct (sample_loop_frames sdk d bs fns pos vars start st1 r1 E1) as [(k & Hk) Hall]
  end.
  simpl in Hk, Hall. destruct r1 as [vars|e]; cbn [fst snd].
  - assert (Hfl : time_point_frames
                    (new_view (flush_rest sdk (s_prompts vars) (images_value vars)
                                 (s_annotations vars) st1).1)
                  = time_point_frames (new_view st1)).
    { unfold time_point_frames. rewrite flush_rest_time_points. reflexivity. }
    rewrite Hfl. split.
    + rewrite Hk. apply prefix_take.
    + intros Hlen _. apply (Hall Hlen vars eq_refl).
  - split; [rewrite Hk; apply prefix_take | discriminate].
Qed.

(** X18. In the sampling block of lines 113-132, run on its own (no
    request reaches it through line 84) with a positive interval, the time
    point at position [i] of the view is at frame [i * frameInterval], a
    frame of the video. *)
Theorem time_points_are_at_multiples_of_the_interval (video_doc : Document)
    (parameters : Parameters) (st' : St) (r : result unit) (i : nat) (frame : Z) :
  0 < frame_interval parameters →
  annotate_sampled sdk video_doc parameters start = (st', r) →
  time_point_frames (new_view st') !! i = Some frame →
  frame = Z.of_nat i * frame_interval parameters
  ∧ 0 ≤ frame < get_frame_count sdk video_doc.
Proof.
  intros Hstep Hrun Hi.
  destruct (py_range_positive (get_frame_count sdk video_doc) (frame_interval parameters) Hstep)
    as (l & Hrange & Hl).
  destruct (annotate_sampled_frames video_doc parameters l Hrange) as [Hprefix _].
  rewrite Hrun in Hprefix. cbn [fst] in Hprefix.
  pose proof (prefix_lookup_Some _ _ _ _ Hi Hprefix) as Hli.
  apply Hl in Hli as [-> Hlt]. split; [reflexivity|]. split; [nia | exact Hlt].
Qed.

(** X19. The sampling block of lines 113-132, run on its own, when it
    completes and was given an image for every frame number, has made a time
    point for each of them, in order. *)
Theorem every_sampled_frame_gets_a_time_point (video_doc : Document)
    (parameters : Parameters) (st' : St) (frame_numbers : list Z) :
  py_range 0 (get_frame_count sdk video_doc) (frame_interval parameters) = Ok frame_numbers →
  (length frame_numbers
   ≤ length (extract_frames_as_images sdk video_doc frame_numbers))%nat →
  annotate_sampled sdk video_doc parameters start = (st', Ok tt) →
  time_point_frames (new_view st') = frame_numbers.
Proof.
  intros Hrange Hlen Hrun.
  destruct (annotate_sampled_frames video_doc parameters frame_numbers Hrange) as [_ Hall].
  rewrite Hrun in Hall. cbn [fst snd] in Hall. apply Hall; [exact Hlen | reflexivity].
Qed.

(** X20. In the sampling block of lines 113-132, a frame interval of zero
    makes [range] raise [ValueError]: the block ends there, before it makes a
    time point or calls the model. *)
Theorem zero_interval_raises (video_doc : Document) (parameters : Parameters) (st : St) :
  frame_interval parameters = 0 →
  annotate_sampled sdk video_doc parameters st = (st, Raise ValueError).
Proof.
  intros Hzero. unfold annotate_sampled, py_range. rewrite Hzero. reflexivity.
Qed.

(** X21. In the sampling block of lines 113-132, with a negative frame
    interval, or a video without frames, there is nothing to sample: the
    block completes without a time point and without a call of the model. *)
Theorem nothing_to_sample (video_doc : Document) (parameters : Parameters) (st : St) :
  (frame_interval parameters < 0 ∧ 0 ≤ get_frame_count sdk video_doc)
  ∨ (0 < frame_interval parameters ∧ get_frame_count sdk video_doc ≤ 0) →
  annotate_sampled sdk video_doc parameters st = (st, Ok tt).
Proof.
  intros Hcase. unfold annotate_sampled.
  assert (Hrange : py_range 0 (get_frame_count sdk video_doc) (frame_interval parameters)
                   = Ok []).
  { unfold py_range.
    destruct (Z.eqb_spec (frame_interval parameters) 0) as [E|_]; [lia|].
    cbv zeta.
    destruct (Z.ltb_spec 0 (frame_interval parameters));
      match goal with |- context [Z.to_nat ?n] =>
        assert (Hn : n < 1) by (apply Z.div_lt_upper_bound; lia);
        replace (Z.to_nat n) with 0%nat by lia; reflexivity
      end. }
  rewrite Hrange. reflexivity.
Qed.

End SamplingRequests.

(** ** The list of images in the sampling loop *)

Section SampledImages.

Context {Image : Type} (sdk : Sdk Image).

Lemma sample_loop_calls_grow (default_prompt : string) (size : Z) (frame_numbers : list Z)
    (pos : nat) (vars : SampleVars) (st : St) :
  ∃ more, calls (sample_loop sdk default_prompt size frame_numbers pos vars st).1
          = calls st ++ more.
Proof.
  destruct (sample_loop sdk default_prompt size frame_numbers pos vars st) as [st' r] eqn:E.
  pose proof (sample_loop_rule sdk (λ s _, ∃ more, calls s = calls st ++ more)
                (λ s, ∃ more, calls s = calls st ++ more) default_prompt size) as Hrule.
  assert (H : match r with
              | Ok _ => ∃ more, calls st' = calls st ++ more
              | Raise _ => ∃ more, calls st' = calls st ++ more
              end).
  { eapply Hrule; [| | |exact E].
    - intros s v image fn Hs. exact Hs.
    - intros s v s' r0 [more Hs] _ _ Eb.
      pose proof (process_batch_calls sdk (s_prompts v) (images_value v) (s_annotations v) s)
        as Hc.
      rewrite Eb in Hc. simpl in Hc.
      assert (∃ more', calls s' = calls st ++ more').
      { eexists. rewrite Hc, Hs, <- app_assoc. reflexivity. }
      destruct r0; assumption.
    - exists []. rewrite app_nil_r. reflexivity. }
  simpl. destruct r; exact H.
Qed.

Lemma flush_rest_calls_grow (prompts : list string) (images : list Image)
    (anns : list string) (st : St) :
  ∃ more, calls (flush_rest sdk prompts images anns st).1 = calls st ++ more.
Proof.
  destruct prompts as [|p ps]; simpl.
  - exists []. rewrite app_nil_r. reflexivity.
  - eexists. apply process_batch_calls.
Qed.

(** As long as [images] is the list that [zip] iterates, the list holds
    the extracted images followed by those of the iterations done; the
    first full batch hands all of that to the model. *)
Lemma sample_loop_first_call (default_prompt : string) (size : nat) (imgs : list Image)
    (frame_numbers : list Z) :
  ∀ (pos : nat) (vars : SampleVars) (st : St),
    s_images vars = Extracted →
    extracted vars = imgs ++ take pos imgs →
    length (s_prompts vars) = pos →
    (pos < size)%nat → (size ≤ pos + length frame_numbers)%nat → (size ≤ length imgs)%nat →
    ∃ first more,
      calls (sample_loop sdk default_prompt (Z.of_nat size) frame_numbers pos vars st).1
      = calls st ++ first :: more
      ∧ call_images first = imgs ++ take size imgs
      ∧ length (call_prompts first) = size.
Proof.
  induction frame_numbers as [|frame_number rest IH];
    intros pos vars st Hal Hext Hlen Hpos Hsize Himgs; [simpl in Hsize; lia|].
  simpl sample_loop.
  assert (Hlook : ∃ image, imgs !! pos = Some image)
    by (apply lookup_lt_is_Some; lia).
  destruct Hlook as [image Himage].
  assert (Hl : extracted vars !! pos = Some image).
  { rewrite Hext, lookup_app_l by lia. exact Himage. }
  rewrite Hl. unfold bind at 1. unfold new_timepoint at 1.
  set (st1 := {| new_view := new_view st ++ [TimePoint (fresh sdk TimePointT st) frame_number];
                 calls := calls st |}).
  set (vars2 := append_annotation (fresh sdk TimePointT st)
                  (append_pair default_prompt image vars)).
  assert (Hv2 : s_images vars2 = Extracted
                ∧ extracted vars2 = imgs ++ take (S pos) imgs
                ∧ length (s_prompts vars2) = S pos).
  { unfold vars2, append_pair. rewrite Hal. simpl.
    rewrite Hext, (take_S_r imgs pos image Himage), length_app, Hlen, <- app_assoc.
    simpl. repeat split. lia. }
  destruct Hv2 as (Hal2 & Hext2 & Hlen2).
  unfold bind at 1.
  change (s_prompts (append_pair default_prompt image vars)) with (s_prompts vars2).
  change (s_annotations (append_pair default_prompt image vars)
            ++ [fresh sdk TimePointT st]) with (s_annotations vars2).
  destruct (Z.eqb_spec (Z.of_nat (length (s_prompts vars2))) (Z.of_nat size)) as [Hfull|Hnot].
  - unfold bind at 1.
    pose proof (process_batch_calls sdk (s_prompts vars2) (images_value vars2)
                  (s_annotations vars2) st1) as Hc.
    destruct (process_batch sdk (s_prompts vars2) (images_value vars2)
                (s_annotations vars2) st1) as [st2 [[]|e]]; cbn [fst] in Hc.
    + unfold ret. cbv beta iota.
      destruct (sample_loop_calls_grow default_prompt (Z.of_nat size) rest (S pos)
                  (rebind vars2) st2) as [more Hmore].
      eexists _, more. rewrite Hmore, Hc, <- app_assoc. split; [reflexivity|].
      unfold images_value. rewrite Hal2, Hext2. simpl.
      replace size with (S pos) by lia. split; [reflexivity | exact Hlen2].
    + eexists _, []. cbn [fst]. rewrite Hc. split; [reflexivity|].
      unfold images_value. rewrite Hal2, Hext2. simpl.
      replace size with (S pos) by lia. split; [reflexivity | exact Hlen2].
  - unfold ret. cbv beta iota.
    destruct (IH (S pos) vars2 st1 Hal2 Hext2 Hlen2) as (first & more & Hc & Hrest);
      [lia | simpl in Hsize; lia | exact Himgs |].
    exists first, more. split; [exact Hc | exact Hrest].
Qed.

(** X22. In the sampling block of lines 113-132, run on its own (no
    request reaches it through line 84) over at least as many frames as the
    batch size [B], the first call of the model receives [B] prompts but all
    the extracted images followed by the first [B] of them again: line 121
    appends to the list that line 117 iterates. *)
Theorem first_sampled_call_receives_the_iterated_list (video_doc : Document)
    (parameters : Parameters) (frame_numbers : list Z) (size : nat) :
  py_range 0 (get_frame_count sdk video_doc) (frame_interval parameters) = Ok frame_numbers →
  batch_size parameters = Z.of_nat size →
  (1 ≤ size ≤ length frame_numbers)%nat →
  (size ≤ length (extract_frames_as_images sdk video_doc frame_numbers))%nat →
  ∃ first more,
    calls (annotate_sampled sdk video_doc parameters start).1 = first :: more
    ∧ length (call_prompts first) = size
    ∧ call_images first
      = extract_frames_as_images sdk video_doc frame_numbers
        ++ take size (extract_frames_as_images sdk video_doc frame_numbers).
Proof.
  intros Hrange Hbs Hsize Himgs.
  unfold annotate_sampled. rewrite Hrange, Hbs. unfold bind.
  match goal with |- context [sample_loop sdk ?d _ ?fns ?pos ?vars start] =>
    destruct (sample_loop_first_call d size
                (extract_frames_as_images sdk video_doc frame_numbers) fns pos vars start)
      as (first & more & Hc & Himages & Hprompts);
      [reflexivity | symmetry; apply app_nil_r | reflexivity | lia | lia | exact Himgs |];
    destruct (sample_loop sdk d (Z.of_nat size) fns pos vars start) as [st1 [vars1|e]]
  end; cbn [fst] in Hc.
  - match goal with |- context [flush_rest sdk ?ps ?is_ ?ss st1] =>
      destruct (flush_rest_calls_grow ps is_ ss st1) as [more' Hmore] end.
    exists first, (more ++ more'). cbn [fst].
    rewrite Hmore, Hc. auto.
  - exists first, more. cbn [fst]. auto.
Qed.

End SampledImages.

(** ** The new view and the declared interface *)

Section DeclaredInterface.

Context {Image : Type} (sdk : Sdk Image).

Lemma find_input_found (mmif : Mmif) :
  has_input_view sdk mmif = true →
  ∃ video_doc input_view, find_input sdk mmif = Ok (video_doc, input_view).
Proof.
  unfold has_input_view, find_input.
  destruct (get_documents_by_type mmif VideoDocument) as [|d ds]; [discriminate|].
  intros Hview. destruct (filter _ _) as [|v vs] eqn:E; [|eauto].
  apply existsb_exists in Hview as (v & Hin & Happ).
  apply bool_decide_eq_true in Happ.
  assert (Hv : v ∈ filter (λ v, view_app v = TRANSNET_APP)
                     (get_views_for_document sdk mmif (doc_id d))).
  { apply list_elem_of_filter. split; [exact Happ | apply list_elem_of_In, Hin]. }
  rewrite E in Hv. inversion Hv.
Qed.

(** A request whose input view yields no time frame completes with an
    empty new view and without a call of the model, whatever its parameters
    and the video: line 84 sends it through the loop over time frames. *)
Lemma no_time_frames_no_output (mmif : Mmif) (parameters : Parameters) :
  has_input_view sdk mmif = true →
  input_timeframes sdk mmif = [] →
  _annotate sdk mmif parameters
  = {| status := Ok tt; out_view := Some []; model_calls := [] |}.
Proof.
  intros Hview Htf.
  destruct (annotate_cases sdk mmif parameters)
    as [(e & Hfind & _)|(video_doc & input_view & _ & ->)].
  - destruct (find_input_found mmif Hview) as (video_doc & input_view & Hfound).
    congruence.
  - rewrite Htf. reflexivity.
Qed.

(** X23. Once the video document and its scene-detector view are found,
    the new view is created, whatever happens afterwards: also a request that
    ends in an exception leaves a new view behind. *)
Theorem input_view_gives_a_new_view (mmif : Mmif) (parameters : Parameters) :
  has_input_view sdk mmif = true →
  ∃ view, out_view (_annotate sdk mmif parameters) = Some view.
Proof.
  intros Hview. destruct (find_input_found mmif Hview) as (video_doc & input_view & Hfind).
  unfold _annotate. rewrite Hfind.
  match goal with |- context [let (_, _) := ?run in _] => destruct run as [st r] end.
  eauto.
Qed.

(** X11. [metadata.py] does not declare time points among the outputs
    of the app, and no request puts one into its new view: the only code
    that makes time points is the sampling block, which line 84 never
    enters. *)
Theorem time_points_are_not_a_declared_output (mmif : Mmif) (parameters : Parameters)
    (view : list OutAnnotation) (id : string) (frame : Z) :
  out_view (_annotate sdk mmif parameters) = Some view →
  (TimePoint id frame ∉ view)
  ∧ io_type_of (TimePoint id frame) ∉ app_outputs appmetadata.
Proof.
  intros Hview. split.
  - intros Hin.
    destruct (annotate_cases sdk mmif parameters)
      as [(e & _ & Hrun)|(video_doc & input_view & _ & Hrun)];
      [rewrite Hrun in Hview; discriminate|].
    rewrite Hrun in Hview. injection Hview as <-.
    destruct (annotate_timeframes_shape sdk mmif parameters (input_timeframes sdk mmif) start)
      as (_ & _ & Hk); [repeat split; constructor|].
    rewrite Forall_forall in Hk. destruct (Hk _ Hin).
  - simpl. intros H.
    apply elem_of_cons in H as [H|H]; [discriminate|].
    apply elem_of_cons in H as [H|H]; [discriminate|]. inversion H.
Qed.

(** X12. A request that sets no parameter captions every time frame,
    whatever its label and the text aligned with it, with the declared
    default prompt between the instruction marks; none is skipped. *)
Theorem declared_defaults_caption_every_time_frame (mmif : Mmif) (timeframe : Annotation) :
  non_skipped declared_defaults timeframe = true
  ∧ rendered_prompt sdk mmif declared_defaults timeframe
    = INST_OPEN +:+ "Describe what is shown in this video frame." +:+ INST_CLOSE.
Proof.
  split; [reflexivity|].
  unfold rendered_prompt. simpl promptMap. rewrite lookup_empty. simpl default.
  apply replace_absent, wrap_keeps_absent. reflexivity.
Qed.

End DeclaredInterface.

(** ** Requests that complete *)

Section CompletedRequests.

Context {Image : Type} (sdk : Sdk Image).

(** X15. A request completes only if none of the time frames of the input
    view is to be skipped: a skipped time frame ends the request at line 90. *)
Theorem completed_request_had_nothing_to_skip (mmif : Mmif) (parameters : Parameters)
    (timeframe : Annotation) :
  status (_annotate sdk mmif parameters) = Ok tt →
  timeframe ∈ input_timeframes sdk mmif →
  non_skipped parameters timeframe = true.
Proof.
  intros Hok Hin.
  destruct (annotate_cases sdk mmif parameters)
    as [(e & _ & Hrun)|(video_doc & input_view & _ & Hrun)].
  - rewrite Hrun in Hok. discriminate.
  - rewrite Hrun in Hok. simpl in Hok.
    destruct (annotate_timeframes sdk mmif parameters (input_timeframes sdk mmif) start)
      as [st' r] eqn:E. simpl in Hok. subst r.
    pose proof (completed_request_skipped_nothing sdk mmif parameters _ _ _ E) as Hall.
    rewrite Forall_forall in Hall. auto.
Qed.

(** X16. A request over time frames that completes, with a batch size
    [B] of at least one, has called the model [ceil(N / B)] times for its [N]
    time frames: every call but the last with exactly [B] prompts, images and
    sources, the last with at least one and at most [B], and the sources of
    the calls are the time frames in input order. *)
Theorem completed_request_batches (mmif : Mmif) (parameters : Parameters) (size : nat) :
  (1 ≤ size)%nat →
  batch_size parameters = Z.of_nat size →
  input_timeframes sdk mmif ≠ [] →
  status (_annotate sdk mmif parameters) = Ok tt →
  let made := model_calls (_annotate sdk mmif parameters) in
  called_sources made = long_id <$> input_timeframes sdk mmif
  ∧ (∃ full rest, made = full ++ rest
                  ∧ Forall (call_size size) full
                  ∧ (rest = [] ∨ ∃ c n, rest = [c] ∧ call_size n c ∧ (1 ≤ n < size)%nat))
  ∧ Z.of_nat (length made)
    = (Z.of_nat (length (input_timeframes sdk mmif)) + Z.of_nat size - 1) / Z.of_nat size.
Proof.
  intros Hsize Hbs Htf Hok.
  destruct (annotate_cases sdk mmif parameters)
    as [(e & _ & Hrun)|(video_doc & input_view & _ & Hrun)];
    [rewrite Hrun in Hok; discriminate|].
  rewrite Hrun in *. simpl in Hok. cbn [outcome_of model_calls].
  destruct (annotate_timeframes sdk mmif parameters (input_timeframes sdk mmif) start)
    as [st' r] eqn:E. simpl in Hok. subst r. cbn [fst].
  pose proof (completed_request_skipped_nothing sdk mmif parameters _ _ _ E) as Hall.
  assert (Hfilter : filter (λ tf, non_skipped parameters tf = true) (input_timeframes sdk mmif)
                    = input_timeframes sdk mmif).
  { clear -Hall. induction Hall as [|tf l Htf _ IH]; [reflexivity|].
    rewrite filter_cons_True by exact Htf. f_equal. exact IH. }
  pose proof (completed_timeframes_batches sdk size Hsize mmif parameters
                (input_timeframes sdk mmif) st' Hbs E) as H.
  cbv zeta in H. rewrite Hfilter, length_fmap in H. exact H.
Qed.

End CompletedRequests.

(** ** Witnesses of the further properties *)

Lemma text_documents_are_stripped_witness :
  PyStr.strip "a caption" = "a caption"%string
  ∧ (∀ c r, "a caption"%string = String c r → PyStr.is_space c = false)
  ∧ (∀ r c, "a caption"%string = r +:+ String c EmptyString → PyStr.is_space c = false).
Proof.
  apply (text_documents_are_stripped Fixture.stub Sample.one_timeframe Sample.plain
           Sample.one_caption "v_1:td_1" "a caption").
  - vm_compute. reflexivity.
  - constructor.
Defined.

Lemma calls_are_never_empty_witness :
  let c := Sample.first_call (_annotate Fixture.stub Sample.two_timeframes Sample.quarters) in
  call_prompts c ≠ [] ∧ length (call_prompts c) = length (call_annotations c).
Proof.
  apply (calls_are_never_empty Fixture.stub Sample.two_timeframes Sample.quarters).
  vm_compute. constructor.
Defined.

Lemma calls_hand_over_time_frames_witness :
  let c := Sample.first_call (_annotate Fixture.stub Sample.two_timeframes Sample.plain) in
  ∃ l, l ≠ [] ∧ l ⊆ input_timeframes Fixture.stub Sample.two_timeframes
       ∧ call_prompts c = rendered_prompt Fixture.stub Sample.two_timeframes Sample.plain <$> l
       ∧ call_images c = extract_mid_frame Fixture.stub Sample.two_timeframes <$> l
       ∧ call_annotations c = long_id <$> l.
Proof.
  apply (calls_hand_over_time_frames Fixture.stub Sample.two_timeframes Sample.plain).
  - vm_compute. discriminate.
  - vm_compute. constructor.
Defined.

Lemma sampling_prompts_are_the_default_prompt_witness :
  Fixture.describe = defaultPrompt Sample.quarters.
Proof.
  apply (sampling_prompts_are_the_default_prompt Fixture.stub Fixture.video Sample.quarters
           Sample.sampled.1 Sample.sampled.2
           (Sample.first_call (outcome_of Sample.sampled)) Fixture.describe).
  - vm_compute. reflexivity.
  - vm_compute. constructor.
  - vm_compute. constructor.
Defined.

Lemma timeframe_outputs_are_declared_witness :
  io_type_of (Alignment "v_1:al_1" "v_0:tf_1" "v_1:td_1") ∈ app_outputs appmetadata.
Proof.
  apply (timeframe_outputs_are_declared Fixture.stub Sample.one_timeframe Sample.plain
           Sample.one_caption).
  - vm_compute. discriminate.
  - vm_compute. reflexivity.
  - constructor. constructor.
Defined.

Lemma batch_size_below_one_makes_one_call_witness :
  (length (model_calls (_annotate Fixture.stub Sample.two_timeframes
                          (Fixture.params ∅ None (Some 0%Z)))) ≤ 1)%nat.
Proof.
  apply (batch_size_below_one_makes_one_call Fixture.stub Sample.two_timeframes
           (Fixture.params ∅ None (Some 0))).
  unfold batch_size. simpl. lia.
Defined.

Lemma failing_model_leaves_no_caption_witness :
  let out := _annotate Sample.silent Sample.two_timeframes Sample.plain in
  (length (model_calls out) ≤ 1)%nat
  ∧ (status out = Ok tt → model_calls out = [])
  ∧ (∀ view, out_view out = Some view → alignments view = [] ∧ text_documents view = []).
Proof.
  apply (failing_model_leaves_no_caption Sample.silent).
  intros prompts images. reflexivity.
Defined.

Lemma time_points_are_at_multiples_of_the_interval_witness :
  50 = Z.of_nat 2 * frame_interval Sample.quarters
  ∧ 0 ≤ 50 < get_frame_count Fixture.stub Fixture.video.
Proof.
  apply (time_points_are_at_multiples_of_the_interval Fixture.stub Fixture.video
           Sample.quarters Sample.sampled.1 Sample.sampled.2 2 50).
  - vm_compute. reflexivity.
  - vm_compute. reflexivity.
  - vm_compute. reflexivity.
Defined.

Lemma every_sampled_frame_gets_a_time_point_witness :
  time_point_frames (new_view Sample.sampled.1) = [0; 25; 50; 75].
Proof.
  apply (every_sampled_frame_gets_a_time_point Fixture.stub Fixture.video
           Sample.quarters Sample.sampled.1 [0; 25; 50; 75]).
  - vm_compute. reflexivity.
  - vm_compute. lia.
  - vm_compute. reflexivity.
Defined.

Lemma zero_interval_raises_witness :
  annotate_sampled Fixture.stub Fixture.video (Fixture.params ∅ (Some 0) None) start
  = (start, Raise ValueError).
Proof.
  apply (zero_interval_raises Fixture.stub Fixture.video
           (Fixture.params ∅ (Some 0) None) start).
  vm_compute. reflexivity.
Defined.

Lemma nothing_to_sample_witness :
  annotate_sampled Fixture.stub Fixture.video (Fixture.params ∅ (Some (-5)) None) start
  = (start, Ok tt).
Proof.
  apply (nothing_to_sample Fixture.stub Fixture.video
           (Fixture.params ∅ (Some (-5)) None) start).
  left. split; vm_compute; [reflexivity | discriminate].
Defined.

Lemma first_sampled_call_receives_the_iterated_list_witness :
  ∃ first more,
    calls (annotate_sampled Fixture.stub Fixture.video
             (Fixture.params ∅ (Some 10) (Some 4)) start).1 = first :: more
    ∧ length (call_prompts first) = 4%nat
    ∧ call_images first
      = extract_frames_as_images Fixture.stub Fixture.video
          [0; 10; 20; 30; 40; 50; 60; 70; 80; 90]
        ++ take 4 (extract_frames_as_images Fixture.stub Fixture.video
                     [0; 10; 20; 30; 40; 50; 60; 70; 80; 90]).
Proof.
  apply (first_sampled_call_receives_the_iterated_list Fixture.stub Fixture.video
           (Fixture.params ∅ (Some 10) (Some 4)) [0; 10; 20; 30; 40; 50; 60; 70; 80; 90] 4).
  - vm_compute. reflexivity.
  - vm_compute. reflexivity.
  - vm_compute. lia.
  - vm_compute. lia.
Defined.

Lemma input_view_gives_a_new_view_witness :
  ∃ view, out_view (_annotate Fixture.stub (Fixture.request [Fixture.tf_2])
                      (Fixture.params Fixture.skip_B None None)) = Some view.
Proof.
  apply (input_view_gives_a_new_view Fixture.stub (Fixture.request [Fixture.tf_2])
           (Fixture.params Fixture.skip_B None None)).
  vm_compute. reflexivity.
Defined.

Lemma time_points_are_not_a_declared_output_witness :
  (TimePoint "v_1:tp_1" 0 ∉ Sample.one_caption)
  ∧ io_type_of (TimePoint "v_1:tp_1" 0) ∉ app_outputs appmetadata.
Proof.
  apply (time_points_are_not_a_declared_output Fixture.stub Sample.one_timeframe
           Sample.plain Sample.one_caption "v_1:tp_1" 0).
  vm_compute. reflexivity.
Defined.

Lemma completed_request_had_nothing_to_skip_witness :
  non_skipped Sample.plain Fixture.tf_3 = true.
Proof.
  apply (completed_request_had_nothing_to_skip Fixture.stub Sample.two_timeframes
           Sample.plain Fixture.tf_3).
  - vm_compute. reflexivity.
  - vm_compute. constructor. constructor.
Defined.

Lemma completed_request_batches_witness :
  let made := model_calls (_annotate Fixture.stub
                             (Fixture.request [Fixture.tf_1; Fixture.tf_2; Fixture.tf_3])
                             (Fixture.params ∅ None (Some 2))) in
  called_sources made
  = long_id <$> input_timeframes Fixture.stub
                  (Fixture.request [Fixture.tf_1; Fixture.tf_2; Fixture.tf_3])
  ∧ (∃ full rest, made = full ++ rest
                  ∧ Forall (call_size 2) full
                  ∧ (rest = [] ∨ ∃ c n, rest = [c] ∧ call_size n c ∧ (1 ≤ n < 2)%nat))
  ∧ Z.of_nat (length made)
    = (Z.of_nat (length (input_timeframes Fixture.stub
                           (Fixture.request [Fixture.tf_1; Fixture.tf_2; Fixture.tf_3])))
       + Z.of_nat 2 - 1) / Z.of_nat 2.
Proof.
  apply (completed_request_batches Fixture.stub
           (Fixture.request [Fixture.tf_1; Fixture.tf_2; Fixture.tf_3])
           (Fixture.params ∅ None (Some 2)) 2).
  - lia.
  - vm_compute. reflexivity.
  - vm_compute. discriminate.
  - vm_compute. reflexivity.
Defined.

Lemma completed_request_aligns_every_span_witness :
  let view := Sample.view_of (_annotate Fixture.stub Sample.two_timeframes Sample.plain) in
  sources view = span_ids Fixture.stub Sample.two_timeframes Sample.plain view
  ∧ length (alignments view)
    = length (span_ids Fixture.stub Sample.two_timeframes Sample.plain view)
  ∧ length (text_documents view)
    = length (span_ids Fixture.stub Sample.two_timeframes Sample.plain view).
Proof.
  apply (completed_request_aligns_every_span Fixture.stub).
  - intros prompts images captions [= <-]. rewrite length_map. reflexivity.
  - vm_compute. reflexivity.
  - vm_compute. reflexivity.
Defined.

(** ** Parameters a request does not read *)

Section UnreadParameters.

Context {Image : Type} (sdk : Sdk Image).

(** X24. When the input view has time frames, [frameInterval] has no
    effect on the request. *)
Theorem frame_interval_is_ignored_with_time_frames (mmif : Mmif) (parameters : Parameters)
    (interval : option Z) :
  input_timeframes sdk mmif ≠ [] →
  _annotate sdk mmif parameters
  = _annotate sdk mmif {| promptMap := promptMap parameters;
                          defaultPrompt := defaultPrompt parameters;
                          frameInterval := interval;
                          batchSize := batchSize parameters |}.
Proof.
  intros Htf. unfold _annotate, input_timeframes in *.
  destruct (find_input sdk mmif) as [[video_doc input_view]|e]; [|reflexivity].
  cbn [py_bool]. unfold annotate_timeframes, bind.
  rewrite (timeframe_loop_reads sdk mmif parameters
             {| promptMap := promptMap parameters; defaultPrompt := defaultPrompt parameters;
                frameInterval := interval; batchSize := batchSize parameters |});
    reflexivity.
Qed.

End UnreadParameters.

Lemma frame_interval_is_ignored_with_time_frames_witness :
  _annotate Fixture.stub Sample.two_timeframes Sample.plain
  = _annotate Fixture.stub Sample.two_timeframes
      {| promptMap := promptMap Sample.plain; defaultPrompt := defaultPrompt Sample.plain;
         frameInterval := Some 0; batchSize := batchSize Sample.plain |}.
Proof.
  apply (frame_interval_is_ignored_with_time_frames Fixture.stub Sample.two_timeframes
           Sample.plain (Some 0)).
  vm_compute. discriminate.
Defined.
